(** * webflow-node-proxy: the relay servers, embedded and verified

    The repository is a family of small Express servers that relay requests
    to a CMS API (through axios or node-fetch), to a cart API (after a token
    refresh) and to a spreadsheet API.  This file embeds

    - the JavaScript values the handlers inspect (truthiness, [typeof],
      property reads that throw on [undefined]/[null]);
    - the handlers as programs of a small state-and-exception monad whose
      state holds the outside world and the log of outbound HTTP calls;
    - process start-up as a function of the environment.

    Outbound calls are answered by an arbitrary, possibly stateful, upstream:
    every theorem holds whatever the upstream replies. *)

From stdpp Require Import base tactics option list strings gmap pretty.
From Stdlib Require Import ZArith Ascii String.

Local Open Scope Z_scope.
Local Open Scope string_scope.

Set Warnings "-register-all".

(** ** JavaScript values *)

Module Js.

(** JSON-shaped JavaScript values.  Numbers are the integers (the handlers
    only look at HTTP status codes and at truthiness); objects keep their
    keys in insertion order. *)
Inductive JValue : Type :=
  | JUndefined
  | JNull
  | JBool (b : bool)
  | JNum (n : Z)
  | JStr (s : string)
  | JArr (items : list JValue)
  | JObj (fields : list (string * JValue)).

(** What a [throw] carries. *)
Inductive Thrown : Type :=
  | AxiosError (response : option (Z * JValue))
      (* rejected axios promise; [error.response] is set when the server answered *)
  | ThrownObj (status : Z) (data : JValue)
      (* the literal [{ status, data }] thrown by the request helpers *)
  | JsError (name message : string).
      (* TypeError, SyntaxError, FetchError, Error *)

(** A computation that returns or throws. *)
Inductive Res (A : Type) : Type :=
  | Ok (a : A)
  | Throw (e : Thrown).
Arguments Ok {A} a.
Arguments Throw {A} e.

#[global] Instance Res_ret : MRet Res := fun _ a => Ok a.
#[global] Instance Res_bind : MBind Res := fun _ _ f m =>
  match m with Ok a => f a | Throw e => Throw e end.

(** [!!v] *)
Definition truthy (v : JValue) : bool :=
  match v with
  | JUndefined | JNull => false
  | JBool b => b
  | JNum n => negb (Z.eqb n 0)
  | JStr s => negb (String.eqb s "")
  | JArr _ | JObj _ => true
  end.

(** [typeof v] *)
Definition typeof (v : JValue) : string :=
  match v with
  | JUndefined => "undefined"
  | JNull => "object"
  | JBool _ => "boolean"
  | JNum _ => "number"
  | JStr _ => "string"
  | JArr _ | JObj _ => "object"
  end.

Definition nullish (v : JValue) : bool :=
  match v with JUndefined | JNull => true | _ => false end.

(** [a || b] *)
Definition js_or (a b : JValue) : JValue := if truthy a then a else b.

(** First binding of [k] in an association list. *)
Fixpoint assoc {A : Type} (k : string) (l : list (string * A)) : option A :=
  match l with
  | [] => None
  | (k', v) :: rest => if String.eqb k k' then Some v else assoc k rest
  end.

(** [obj[k] = v] on the field list of an object: an existing key keeps its
    place, a new key goes last. *)
Fixpoint obj_set (k : string) (v : JValue) (fields : list (string * JValue))
  : list (string * JValue) :=
  match fields with
  | [] => [(k, v)]
  | (k', v') :: rest =>
      if String.eqb k k' then (k, v) :: rest else (k', v') :: obj_set k v rest
  end.

(** [v.k] for a named data property [k]: reading from [undefined] or [null]
    throws a TypeError, reading from any other value yields the own field or
    [undefined].  (Prototype members and array indices are not data fields;
    none of the names the handlers read is one.) *)
Definition js_get (v : JValue) (k : string) : Res JValue :=
  match v with
  | JUndefined | JNull =>
      Throw (JsError "TypeError" ("Cannot read properties of " +:+
               (if v is JNull then "null" else "undefined") +:+
               " (reading '" +:+ k +:+ "')"))
  | JObj fields => Ok (default JUndefined (assoc k fields))
  | _ => Ok JUndefined
  end.

(** [v?.k] *)
Definition js_get_opt (v : JValue) (k : string) : JValue :=
  match v with
  | JObj fields => default JUndefined (assoc k fields)
  | _ => JUndefined
  end.

(** [v?.[0]] *)
Definition js_first_opt (v : JValue) : JValue :=
  match v with
  | JArr (x :: _) => x
  | JStr (String c _) => JStr (String c EmptyString)
  | JObj fields => default JUndefined (assoc "0" fields)
  | _ => JUndefined
  end.

(** The receiver of [.map(...)]: only an array has the method. *)
Definition as_array (v : JValue) : Res (list JValue) :=
  match v with
  | JArr items => Ok items
  | JUndefined | JNull =>
      Throw (JsError "TypeError" "Cannot read properties of undefined (reading 'map')")
  | _ => Throw (JsError "TypeError" "map is not a function")
  end.

(** [Array.prototype.map] with a callback that may throw: the first throw
    aborts the traversal. *)
Fixpoint map_res {A B : Type} (f : A -> Res B) (l : list A) : Res (list B) :=
  match l with
  | [] => Ok []
  | x :: rest => y ← f x; ys ← map_res f rest; mret (y :: ys)
  end.

(** An object literal whose initialisers may throw, evaluated in order. *)
Fixpoint obj_lit (inits : list (string * Res JValue)) : Res (list (string * JValue)) :=
  match inits with
  | [] => Ok []
  | (k, init) :: rest => v ← init; fields ← obj_lit rest; mret ((k, v) :: fields)
  end.

(** String conversion, as performed by a template literal or by [+] with a
    string operand.  A number is printed with the digits of the integer, as
    JavaScript prints every integer below 2^53 in magnitude; beyond that
    JavaScript prints the shortest digits of the double (in exponent form
    from 1e21 on), which this function does not follow. *)
Fixpoint js_to_string (v : JValue) : string :=
  match v with
  | JUndefined => "undefined"
  | JNull => "null"
  | JBool true => "true"
  | JBool false => "false"
  | JNum n => pretty n
  | JStr s => s
  | JArr items =>
      String.concat ","
        (map (fun x => if nullish x then "" else js_to_string x) items)
  | JObj _ => "[object Object]"
  end.

(** ASCII case mapping, the part of [toUpperCase]/[toLowerCase] that HTTP
    method and header names exercise. *)
Definition upper_ascii (c : ascii) : ascii :=
  let n := nat_of_ascii c in
  if (97 <=? n)%nat && (n <=? 122)%nat then ascii_of_nat (n - 32) else c.

Definition lower_ascii (c : ascii) : ascii :=
  let n := nat_of_ascii c in
  if (65 <=? n)%nat && (n <=? 90)%nat then ascii_of_nat (n + 32) else c.

Fixpoint map_string (f : ascii -> ascii) (s : string) : string :=
  match s with
  | EmptyString => EmptyString
  | String c rest => String (f c) (map_string f rest)
  end.

Definition toUpperCase : string -> string := map_string upper_ascii.
Definition toLowerCase : string -> string := map_string lower_ascii.

(** [list.includes(s)] on a list of strings. *)
Definition includes (l : list string) (s : string) : bool :=
  existsb (String.eqb s) l.

(** A possibly-undefined string, as read from [process.env] or [req.params]. *)
Definition of_opt (o : option string) : JValue :=
  match o with Some s => JStr s | None => JUndefined end.

End Js.
Export Js.

(** ** HTTP: requests, replies and the effect monad *)

Module Http.

(** What an outbound request carries as its body.  A JSON text is
    represented by the value it encodes. *)
Inductive Payload : Type :=
  | JsonData (v : JValue)                     (* axios [config.data] *)
  | JsonText (v : JValue)                     (* [JSON.stringify(v)] *)
  | FormText (fields : list (string * string)). (* [new URLSearchParams({...})] *)

(** The argument of [axios(config)] or of [fetch(url, options)]. *)
Record OutReq : Type := mkOutReq {
  out_method : string;
  out_url : string;
  out_headers : list (string * JValue);
  out_params : option JValue;
  out_body : option Payload
}.

Inductive RespBody : Type :=
  | JsonBody (v : JValue)
  | TextBody (s : string).

(** What the network gives back for one outbound request. *)
Inductive Reply : Type :=
  | NetworkFailure
  | HttpReply (status : Z) (body : RespBody).

(** The inbound request as Express hands it to a handler: [req.method],
    [req.params], [req.headers] (names lower-cased by Node) and [req.body]. *)
Record Request : Type := mkRequest {
  req_method : string;
  req_params : list (string * string);
  req_headers : list (string * string);
  req_body : JValue
}.

(** [req.params.k] *)
Definition param (req : Request) (k : string) : JValue :=
  of_opt (assoc k (req_params req)).

(** [req.get(name)]: header lookup, case-insensitive. *)
Definition req_get (req : Request) (name : string) : JValue :=
  of_opt (assoc (toLowerCase name) (req_headers req)).

Inductive Content : Type :=
  | Json (v : JValue)     (* [res.json(v)] *)
  | Text (s : string).    (* [res.send(s)] *)

(** The response a handler sends. *)
Record Response : Type := mkResponse {
  status : Z;
  content : Content
}.

(** [res.json(v)] *)
Definition res_json (v : JValue) : Response := mkResponse 200 (Json v).
(** [res.status(code).json(v)] *)
Definition res_status_json (code : Z) (v : JValue) : Response :=
  mkResponse code (Json v).

(** [JSON.stringify(v)]: [undefined] has no JSON text.  The text of an
    object leaves out the keys bound to [undefined], so [JsonText v] stands
    for the text of [v] exactly when [v] holds no [undefined]; a parsed
    [req.body] never does. *)
Definition JSON_stringify (v : JValue) : option Payload :=
  match v with JUndefined => None | _ => Some (JsonText v) end.

(** [response.ok] of fetch, and the statuses axios resolves on. *)
Definition is_2xx (s : Z) : bool := (200 <=? s)%Z && (s <? 300)%Z.

(** [error.status] and [error.data] as the route handlers read them. *)
Definition error_status (e : Thrown) : option Z :=
  match e with
  | ThrownObj s _ => Some s
  | AxiosError (Some (s, _)) => Some s
  | _ => None
  end.

Definition error_data (e : Thrown) : JValue :=
  match e with
  | ThrownObj _ d => d
  | _ => JUndefined
  end.

Definition error_message (e : Thrown) : JValue :=
  match e with
  | JsError _ m => JStr m
  | _ => JUndefined
  end.

(** [status || fallback] for a possibly-undefined number. *)
Definition or_default (o : option Z) (fallback : Z) : Z :=
  match o with
  | Some s => if Z.eqb s 0 then fallback else s
  | None => fallback
  end.

Section Monad.
Context {W : Type}.

(** The state threaded through a handler: the world behind the network and
    the outbound calls made so far with their replies, oldest first. *)
Record St : Type := mkSt {
  world : W;
  trace : list (OutReq * Reply)
}.

(** The requests sent so far. *)
Definition calls (st : St) : list OutReq := map fst (trace st).

Definition M (A : Type) : Type := St -> Res A * St.

Definition ret {A} (a : A) : M A := fun st => (Ok a, st).
Definition throw {A} (e : Thrown) : M A := fun st => (Throw e, st).
Definition bind {A B} (m : M A) (k : A -> M B) : M B := fun st =>
  match m st with
  | (Ok a, st') => k a st'
  | (Throw e, st') => (Throw e, st')
  end.
(** [try { m } catch (error) { h error }] *)
Definition try_catch {A} (m : M A) (h : Thrown -> M A) : M A := fun st =>
  match m st with
  | (Ok a, st') => (Ok a, st')
  | (Throw e, st') => h e st'
  end.
(** A pure computation that may throw. *)
Definition lift {A} (r : Res A) : M A := fun st => (r, st).

(** The upstream: any function from a request and the current world to a
    reply and the next world. *)
Variable upstream : OutReq -> W -> Reply * W.

(** One outbound call: logged, then answered by the upstream. *)
Definition send (r : OutReq) : M Reply := fun st =>
  let (reply, w') := upstream r (world st) in
  (Ok reply, mkSt w' (trace st ++ [(r, reply)])).

(** [response.data] of axios: parsed JSON, or the raw text. *)
Definition axios_data (b : RespBody) : JValue :=
  match b with JsonBody v => v | TextBody s => JStr s end.

(** [await axios(config)], reduced to the [data] the callers read: resolves
    on 2xx, rejects with [error.response] on any other status and without
    it when no reply came. *)
Definition axios (config : OutReq) : M JValue :=
  bind (send config) (fun reply =>
    match reply with
    | NetworkFailure => throw (AxiosError None)
    | HttpReply s b =>
        if is_2xx s then ret (axios_data b)
        else throw (AxiosError (Some (s, axios_data b)))
    end).

(** [await fetch(url, options)]: resolves with the status and body on any
    HTTP reply, rejects when no reply came (the message of the rejection,
    like that of [json] below, is a stand-in for the library's). *)
Definition fetch (r : OutReq) : M (Z * RespBody) :=
  bind (send r) (fun reply =>
    match reply with
    | NetworkFailure => throw (JsError "FetchError" "request failed")
    | HttpReply s b => ret (s, b)
    end).

(** [await response.json()] *)
Definition json (response : Z * RespBody) : M JValue :=
  match snd response with
  | JsonBody v => ret v
  | TextBody _ => throw (JsError "SyntaxError" "Unexpected token in JSON")
  end.

(** Run a handler from a world with an empty call log. *)
Definition run {A} (m : M A) (w : W) : Res A * St := m (mkSt w []).
End Monad.

Arguments St : clear implicits.
Arguments M : clear implicits.

End Http.
Export Http.

Declare Scope handler_scope.
Delimit Scope handler_scope with handler.
Notation "x <~ m ; k" := (bind m (fun x => k))
  (at level 100, m at next level, right associativity) : handler_scope.

Local Open Scope handler_scope.

(** ** Process start-up *)

Module Startup.

(** The server variants of the repository, one per source file. *)
Inductive Variant : Type :=
  | PagesServer    (* axios; page, collection and custom-code routes *)
  | FoxyProxy      (* node-fetch; /foxycart/* and /proxy/* *)
  | CmsProjected   (* axios; /cms/collection/items, first projection *)
  | CmsAirtable    (* axios; second projection and /airtable/ping *)
  | CmsRaw         (* axios; /cms/collection/items, raw payload *)
  | FetchServer.   (* node-fetch; POST /webflow and POST /test_auth *)

Inductive Outcome : Type :=
  | Exited (code : Z)          (* [process.exit(code)] *)
  | Listening (port : string). (* [app.listen(port)] reached *)

(** [!process.env.NAME] *)
Definition unset (env : gmap string string) (name : string) : bool :=
  negb (truthy (of_opt (env !! name))).

(** [process.env.PORT || 3000] *)
Definition PORT (env : gmap string string) : string :=
  js_to_string (js_or (of_opt (env !! "PORT")) (JNum 3000)).

(** The module body of the axios servers up to [app.listen]: the check on
    [WEBFLOW_API_KEY] and [SITE_ID] comes before any route is registered. *)
Definition axios_startup (env : gmap string string) : Outcome :=
  if unset env "WEBFLOW_API_KEY" || unset env "SITE_ID" then Exited 1
  else Listening (PORT env).

(** The spreadsheet variant runs a second check, further down the module and
    still before [app.listen]. *)
Definition airtable_startup (env : gmap string string) : Outcome :=
  if unset env "WEBFLOW_API_KEY" || unset env "SITE_ID" then Exited 1
  else if unset env "AIRTABLE_API_KEY" || unset env "AIRTABLE_BASE_ID" then Exited 1
  else Listening (PORT env).

(** The two node-fetch servers read the environment and listen; neither
    checks anything. *)
Definition fetch_startup (env : gmap string string) : Outcome :=
  Listening (PORT env).

Definition startup (v : Variant) (env : gmap string string) : Outcome :=
  match v with
  | PagesServer | CmsProjected | CmsRaw => axios_startup env
  | CmsAirtable => airtable_startup env
  | FoxyProxy | FetchServer => fetch_startup env
  end.

(** The environment variables whose value a variant sends upstream as a
    credential or as part of the credentialed URL. *)
Definition credentials (v : Variant) : list string :=
  match v with
  | PagesServer | CmsProjected | CmsRaw | FetchServer => ["WEBFLOW_API_KEY"]
  | CmsAirtable => ["WEBFLOW_API_KEY"; "AIRTABLE_API_KEY"; "AIRTABLE_BASE_ID"]
  | FoxyProxy => []
  end.

End Startup.
Export Startup.

(** ** The axios servers *)

Module Axios.
Section Server.
Context {W : Type}.
Variable upstream : OutReq -> W -> Reply * W.
(** [process.env], read once when the module is loaded. *)
Variable env : gmap string string.

#[local] Abbreviation M := (M W).
#[local] Abbreviation axios := (axios upstream).

Definition WEBFLOW_API_KEY : JValue := of_opt (env !! "WEBFLOW_API_KEY").

(** The [config] object [makeWebflowRequest] builds: [data] is set only for
    a truthy [data] and a method other than GET and HEAD. *)
Definition webflow_config (method endpoint : string) (data : JValue) : OutReq :=
  let url := "https://api.webflow.com" +:+ endpoint in
  let headers :=
    [ ("accept", JStr "application/json");
      ("authorization", JStr ("Bearer " +:+ js_to_string WEBFLOW_API_KEY));
      ("content-type", JStr "application/json") ] in
  let config_data :=
    if truthy data && negb (includes ["GET"; "HEAD"] (toUpperCase method))
    then Some (JsonData data) else None in
  mkOutReq method url headers None config_data.

(** The [catch] block of both request helpers. *)
Definition rethrow (error : Thrown) : M JValue :=
  match error with
  | AxiosError (Some (s, d)) => throw (ThrownObj s d)
  | _ => throw (ThrownObj 500 (JObj [("message", JStr "Internal Server Error")]))
  end.

(** [makeWebflowRequest(method, endpoint, data = null)] *)
Definition makeWebflowRequest (method endpoint : string) (data : JValue) : M JValue :=
  let data := if data is JUndefined then JNull else data in
  let config := webflow_config method endpoint data in
  try_catch (axios config) rethrow.

(** The shape shared by every [catch] block of the axios routes:
    [res.status(error.status || 500).json({ ...fixed, details: error.data })]. *)
Definition fail_with (fixed : list (string * JValue)) (error : Thrown) : M Response :=
  ret (res_status_json (or_default (error_status error) 500)
         (JObj (fixed ++ [("details", error_data error)]))).

(** GET /test_auth and POST /test_auth *)
Definition test_auth (req : Request) : M Response :=
  try_catch
    (data <~ makeWebflowRequest "GET" "/v2/token/authorized_by" JUndefined;
     ret (res_json (JObj [("success", JBool true);
                          ("message", JStr "Authorization successful!");
                          ("data", data)])))
    (fail_with [("success", JBool false);
                ("message", JStr "Authorization failed.")]).


Definition bad_request (msg : string) : M Response :=
  ret (res_status_json 400 (JObj [("error", JStr msg)])).

(** GET /webflow/pages/:page_id/meta *)
Definition get_page_meta (req : Request) : M Response :=
  let page_id := param req "page_id" in
  if negb (truthy page_id) then bad_request "page_id is required." else
  try_catch
    (data <~ makeWebflowRequest "GET" ("/pages/" +:+ js_to_string page_id) JUndefined;
     ret (res_json data))
    (fail_with [("error", JStr "Failed to fetch page metadata.")]).

(** PUT /webflow/pages/:page_id/meta *)
Definition put_page_meta (req : Request) : M Response :=
  let page_id := param req "page_id" in
  fieldData <~ lift (js_get (req_body req) "fieldData");
  if negb (truthy page_id) then bad_request "page_id is required." else
  if negb (truthy fieldData) || negb (String.eqb (typeof fieldData) "object")
  then bad_request "Valid fieldData object is required." else
  try_catch
    (data <~ makeWebflowRequest "PUT" ("/pages/" +:+ js_to_string page_id)
               (JObj [("fieldData", fieldData)]);
     ret (res_json data))
    (fail_with [("error", JStr "Failed to update page metadata.")]).

(** GET /webflow/pages/:page_id/content *)
Definition get_page_content (req : Request) : M Response :=
  let page_id := param req "page_id" in
  if negb (truthy page_id) then bad_request "page_id is required." else
  try_catch
    (data <~ makeWebflowRequest "GET"
               ("/pages/" +:+ js_to_string page_id +:+ "/dom") JUndefined;
     ret (res_json data))
    (fail_with [("error", JStr "Failed to fetch page content.")]).

(** POST /webflow/pages/:page_id/content *)
Definition post_page_content (req : Request) : M Response :=
  let page_id := param req "page_id" in
  body_id <~ lift (js_get (req_body req) "body_id");
  script_id <~ lift (js_get (req_body req) "script_id");
  script_version <~ lift (js_get (req_body req) "script_version");
  fieldData <~ lift (js_get (req_body req) "fieldData");
  if negb (truthy page_id) then bad_request "page_id is required." else
  if negb (truthy fieldData) || negb (String.eqb (typeof fieldData) "object")
  then bad_request "Valid fieldData object is required." else
  let data := JObj [("body_id", body_id); ("script_id", script_id);
                    ("script_version", script_version);
                    ("fieldData", fieldData)] in
  try_catch
    (response <~ makeWebflowRequest "POST"
                   ("/pages/" +:+ js_to_string page_id +:+ "/dom") data;
     ret (res_json response))
    (fail_with [("error", JStr "Failed to update page content.")]).

(** GET /webflow/collections/:collection_id/items/live *)
Definition get_live_item (req : Request) : M Response :=
  let collection_id := param req "collection_id" in
  if negb (truthy collection_id) then bad_request "collection_id is required." else
  try_catch
    (data <~ makeWebflowRequest "GET"
               ("/collections/" +:+ js_to_string collection_id +:+ "/items/live")
               JUndefined;
     ret (res_json data))
    (fail_with [("error", JStr "Failed to fetch live collection item.")]).

(** PATCH /webflow/collections/:collection_id/items/live *)
Definition patch_live_item (req : Request) : M Response :=
  let collection_id := param req "collection_id" in
  fieldData <~ lift (js_get (req_body req) "fieldData");
  if negb (truthy collection_id) then bad_request "collection_id is required." else
  if negb (truthy fieldData) || negb (String.eqb (typeof fieldData) "object")
  then bad_request "Valid fieldData object is required." else
  try_catch
    (data <~ makeWebflowRequest "PATCH"
               ("/collections/" +:+ js_to_string collection_id +:+ "/items/live")
               (JObj [("fieldData", fieldData)]);
     ret (res_json data))
    (fail_with [("error", JStr "Failed to update live collection item.")]).

(** GET /webflow/pages/:page_id/custom_code *)
Definition get_custom_code (req : Request) : M Response :=
  let page_id := param req "page_id" in
  if negb (truthy page_id) then bad_request "page_id is required." else
  try_catch
    (data <~ makeWebflowRequest "GET"
               ("/pages/" +:+ js_to_string page_id +:+ "/custom_code") JUndefined;
     ret (res_json data))
    (fail_with [("error", JStr "Failed to fetch custom code for page.")]).

(** PUT /webflow/pages/:page_id/custom_code *)
Definition put_custom_code (req : Request) : M Response :=
  let page_id := param req "page_id" in
  customCode <~ lift (js_get (req_body req) "customCode");
  if negb (truthy page_id) then bad_request "page_id is required." else
  if negb (truthy customCode) || negb (String.eqb (typeof customCode) "object")
  then bad_request "Valid customCode object is required." else
  try_catch
    (data <~ makeWebflowRequest "PUT"
               ("/pages/" +:+ js_to_string page_id +:+ "/custom_code")
               (JObj [("customCode", customCode)]);
     ret (res_json data))
    (fail_with [("error", JStr "Failed to add/update custom code for page.")]).
End Server.
End Axios.

(** ** The collection-item servers and the spreadsheet route *)

Module Cms.

(** The callback of [response.items.map(...)] in the first projecting
    server. *)
Definition project_items (item : JValue) : Res JValue :=
  f ← js_get item "fieldData";
  fields ← obj_lit
    [ ("id", js_get item "id");
      ("name", js_get f "name");
      ("display", js_get f "display");
      ("type", js_get f "type");
      ("company", js_get f "company");
      ("category", js_get f "category");
      ("description", js_get f "description");
      ("keywords", js_get f "keywords");
      ("link", js_get f "linkto");
      ("options", js_get f "options");
      ("opts_ids", js_get f "opts");
      ("slug", js_get f "slug");
      ("createdOn", js_get item "createdOn");
      ("lastUpdated", js_get item "lastUpdated") ];
  mret (JObj fields).

(** The callback of [response.items.map(...)] in the spreadsheet server;
    [collectionId] is the handler's constant. *)
Definition project_items_airtable (collectionId : string) (item : JValue) : Res JValue :=
  f ← js_get item "fieldData";
  fields ← obj_lit
    [ ("name", js_get f "name");
      ("slug", js_get f "slug");
      ("collectionId", Ok (JStr collectionId));
      ("itemId", js_get item "id");
      ("createdOn", js_get item "createdOn");
      ("updatedOn", js_get item "lastUpdated");
      ("publishedOn", js_get item "lastPublished");
      ("type", js_get f "type");
      ("display", js_get f "display");
      ("company", js_get f "company");
      ("category", js_get f "category");
      ("options", js_get f "options");
      ("description", js_get f "description");
      ("suggest", js_get f "suggest");
      ("linkto", js_get f "linkto");
      ("co", js_get f "co");
      ("expl", js_get f "expl");
      ("comp", js_get f "comp");
      ("acct", js_get f "acct") ];
  mret (JObj fields).

(** The two servers that project. *)
Inductive Projection : Type := First | Second.

Definition collection_id (p : Projection) : string :=
  match p with
  | First => "647ddb9037101ce399b3310c"
  | Second => "64b01211660e83444d2586c1"
  end.

(** [items.map(item => ...)]: the [cleaned] array of the handler. *)
Definition cleaned (p : Projection) (items : list JValue) : Res (list JValue) :=
  match p with
  | First => map_res project_items items
  | Second => map_res (project_items_airtable (collection_id Second)) items
  end.

Section Server.
Context {W : Type}.
Variable upstream : OutReq -> W -> Reply * W.
Variable env : gmap string string.

#[local] Abbreviation M := (M W).

(** GET /cms/collection/items of the two projecting servers *)
Definition cms_items (p : Projection) (req : Request) : M Response :=
  let collectionId := collection_id p in
  try_catch
    (response <~ Axios.makeWebflowRequest upstream env "GET"
                   ("/v2/collections/" +:+ collectionId +:+ "/items") JUndefined;
     items <~ lift (js_get response "items");
     items <~ lift (as_array items);
     cleaned <~ lift (cleaned p items);
     ret (res_json (JObj [("success", JBool true);
                          ("count", JNum (Z.of_nat (List.length cleaned)));
                          ("items", JArr cleaned)])))
    (Axios.fail_with [("success", JBool false);
                      ("message", JStr "Failed to fetch CMS items.")]).

(** GET /cms/collection/items of the server that returns the raw payload *)
Definition cms_items_raw (req : Request) : M Response :=
  let collectionId := "647ddb9037101ce399b3310c" in
  try_catch
    (data <~ Axios.makeWebflowRequest upstream env "GET"
               ("/v2/collections/" +:+ collectionId +:+ "/items") JUndefined;
     ret (res_json (JObj [("success", JBool true); ("data", data)])))
    (Axios.fail_with [("success", JBool false);
                      ("message", JStr "Failed to fetch collection items.")]).

Definition AIRTABLE_API_KEY : JValue := of_opt (env !! "AIRTABLE_API_KEY").
Definition AIRTABLE_BASE_ID : JValue := of_opt (env !! "AIRTABLE_BASE_ID").
Definition AIRTABLE_HORSES_TABLE : JValue :=
  js_or (of_opt (env !! "AIRTABLE_HORSES_TABLE")) (JStr "tblliyUZ1ZS88Kfvl").

(** The [config] object [makeAirtableRequest] builds. *)
Definition airtable_config (method path : string) (params data : JValue) : OutReq :=
  let url := "https://api.airtable.com/v0/" +:+ js_to_string AIRTABLE_BASE_ID
               +:+ "/" +:+ path in
  let headers :=
    [ ("Authorization", JStr ("Bearer " +:+ js_to_string AIRTABLE_API_KEY));
      ("Content-Type", JStr "application/json") ] in
  let config_params := if truthy params then Some params else None in
  let config_data :=
    if truthy data && negb (includes ["GET"; "HEAD"] (toUpperCase method))
    then Some (JsonData data) else None in
  mkOutReq method url headers config_params config_data.

(** [makeAirtableRequest(method, path, params = null, data = null)] *)
Definition makeAirtableRequest (method path : string) (params data : JValue) : M JValue :=
  let params := if params is JUndefined then JNull else params in
  let data := if data is JUndefined then JNull else data in
  let config := airtable_config method path params data in
  try_catch (axios upstream config) (Axios.rethrow).

(** GET /airtable/ping *)
Definition airtable_ping (req : Request) : M Response :=
  try_catch
    (data <~ makeAirtableRequest "GET" (js_to_string AIRTABLE_HORSES_TABLE)
               (JObj [("pageSize", JNum 1)]) JUndefined;
     ret (res_json
            (JObj [("success", JBool true);
                   ("message", JStr "Airtable OK");
                   ("sample", js_or (js_first_opt (js_get_opt data "records"))
                                JNull)])))
    (Axios.fail_with [("success", JBool false);
                      ("message", JStr "Airtable failed")]).
End Server.
End Cms.

(** ** The cart proxy and the generic proxy (node-fetch) *)

Module Foxy.
Section Server.
Context {W : Type}.
Variable upstream : OutReq -> W -> Reply * W.
(** The three string literals of [refreshToken]; their values play no role. *)
Variables refresh_token client_id client_secret : string.

#[local] Abbreviation M := (M W).

(** The request [refreshToken] sends to the token endpoint. *)
Definition token_request : OutReq :=
  mkOutReq "POST" "https://api.foxycart.com/token"
    [ ("Content-Type", JStr "application/x-www-form-urlencoded") ]
    None
    (Some (FormText [ ("grant_type", "refresh_token");
                      ("refresh_token", refresh_token);
                      ("client_id", client_id);
                      ("client_secret", client_secret) ])).

(** [async function refreshToken()] *)
Definition refreshToken : M JValue :=
  refreshResponse <~ fetch upstream token_request;
  tokenData <~ json refreshResponse;
  lift (js_get tokenData "access_token").

(** [['POST', 'PUT'].includes(req.method) ? JSON.stringify(req.body) : undefined] *)
Definition forwarded_body (req : Request) : option Payload :=
  if includes ["POST"; "PUT"] (req_method req)
  then JSON_stringify (req_body req) else None.

(** The request the cart route sends once it holds [accessToken]. *)
Definition foxy_request (accessToken : JValue) (req : Request) : OutReq :=
  let endpoint := js_to_string (param req "endpoint")
                    +:+ js_to_string (js_or (param req "0") (JStr "")) in
  let apiUrl := "https://api.foxycart.com/" +:+ endpoint in
  mkOutReq (req_method req) apiUrl
    [ ("Authorization", JStr ("Bearer " +:+ js_to_string accessToken));
      ("FOXY-API-VERSION", JStr "1");
      ("Content-Type", js_or (req_get req "Content-Type") (JStr "application/json")) ]
    None
    (forwarded_body req).

(** What both routes do with the reply: insist on [ok], parse, send. *)
Definition relay_reply (apiResponse : Z * RespBody) : M Response :=
  if negb (is_2xx (fst apiResponse))
  then throw (JsError "Error" ("API request failed with status "
                                 +:+ pretty (fst apiResponse)))
  else data <~ json apiResponse; ret (res_json data).

(** app.all('/foxycart/:endpoint*') *)
Definition foxycart (req : Request) : M Response :=
  try_catch
    (accessToken <~ refreshToken;
     apiResponse <~ fetch upstream (foxy_request accessToken req);
     relay_reply apiResponse)
    (fun error =>
       ret (res_status_json 500
              (JObj [("error", JStr "Error fetching data from FoxyCart API")]))).

(** [{ ...req.headers, 'Host': undefined, 'Origin': undefined }] *)
Definition proxy_headers (req : Request) : list (string * JValue) :=
  obj_set "Origin" JUndefined
    (obj_set "Host" JUndefined
       (map (fun kv => (fst kv, JStr (snd kv))) (req_headers req))).

(** The request the generic route sends. *)
Definition proxy_request (req : Request) : OutReq :=
  let apiUrl := param req "0" in
  mkOutReq (req_method req) (js_to_string apiUrl) (proxy_headers req) None
    (forwarded_body req).

(** app.all('/proxy/*') *)
Definition proxy (req : Request) : M Response :=
  try_catch
    (apiResponse <~ fetch upstream (proxy_request req);
     relay_reply apiResponse)
    (fun error =>
       ret (res_status_json 500
              (JObj [("error", JStr "Error fetching data from external API")]))).

(** Requests handled one after the other, in arrival order, on the same
    world and call log.  (Handlers share no variable, so interleaving two of
    them at their [await]s changes nothing but the order of the log.) *)
Fixpoint serve (handler : Request -> M Response) (reqs : list Request)
    (st : St W) : list (Res Response) * St W :=
  match reqs with
  | [] => ([], st)
  | req :: rest =>
      let (r, st') := handler req st in
      let (rs, st'') := serve handler rest st' in
      (r :: rs, st'')
  end.
End Server.

(** A header is on the wire when some entry of the header object carries
    its name, in any letter case, with a defined value. *)
Definition header_sent (name : string) (headers : list (string * JValue)) : bool :=
  existsb (fun kv => String.eqb (toLowerCase (fst kv)) (toLowerCase name)
                     && negb (if snd kv is JUndefined then true else false))
          headers.
End Foxy.

(** ** The node-fetch CMS server *)

Module Fetch.
Section Server.
Context {W : Type}.
Variable upstream : OutReq -> W -> Reply * W.
Variable env : gmap string string.

#[local] Abbreviation M := (M W).

Definition WEBFLOW_API_KEY : JValue := of_opt (env !! "WEBFLOW_API_KEY").

Definition webflow_headers : list (string * JValue) :=
  [ ("accept", JStr "application/json");
    ("authorization", JStr ("Bearer " +:+ js_to_string WEBFLOW_API_KEY));
    ("content-type", JStr "application/json") ].

(** app.post('/webflow'): the destructuring and the [body] literal come
    before the [try]. *)
Definition webflow (req : Request) : M Response :=
  fieldData <~ lift (js_get (req_body req) "fieldData");
  let headers := webflow_headers in
  name <~ lift (js_get fieldData "name");
  let body := JObj [ ("isArchived", JBool false);
                     ("isDraft", JBool false);
                     ("fieldData", JObj [("name", name)]) ] in
  try_catch
    (response <~ fetch upstream
                   (mkOutReq "POST"
                      "https://api.webflow.com/v2/collections/6494e10f7a143f705f4db1d2/items"
                      headers None (JSON_stringify body));
     if negb (is_2xx (fst response)) then
       errorData <~ json response;
       ret (res_status_json (fst response)
              (JObj [("error", JStr "Error sending data to Webflow API");
                     ("details", errorData)]))
     else
       data <~ json response;
       ret (res_json data))
    (fun error =>
       ret (res_status_json 500
              (JObj [("error", JStr "Error sending data to Webflow API")]))).

(** app.post('/test_auth') *)
Definition test_auth (req : Request) : M Response :=
  try_catch
    (response <~ fetch upstream
                   (mkOutReq "GET" "https://api.webflow.com/sites"
                      webflow_headers None None);
     if is_2xx (fst response) then
       data <~ json response;
       ret (res_json (JObj [("success", JBool true);
                            ("message", JStr "Authorization successful!");
                            ("data", data)]))
     else
       errorData <~ json response;
       ret (res_status_json (fst response)
              (JObj [("success", JBool false);
                     ("message", JStr "Authorization failed.");
                     ("details", errorData)])))
    (fun error =>
       ret (res_status_json 500
              (JObj [("success", JBool false);
                     ("message", JStr "Error during authentication test.");
                     ("details", error_message error)]))).
End Server.
End Fetch.

(** ** The route table *)

Module Routes.

(** Every route of the repository that calls an upstream. *)
Inductive Route : Type :=
  | TestAuth | GetPageMeta | PutPageMeta | GetPageContent | PostPageContent
  | GetLiveItem | PatchLiveItem | GetCustomCode | PutCustomCode
  | CmsItems (p : Cms.Projection) | CmsItemsRaw | AirtablePing
  | FetchWebflow | FetchTestAuth
  | Foxycart | Proxy.

Section Table.
Context {W : Type}.
Variable upstream : OutReq -> W -> Reply * W.
Variable env : gmap string string.
Variables refresh_token client_id client_secret : string.

Definition handler (r : Route) : Request -> M W Response :=
  match r with
  | TestAuth => Axios.test_auth upstream env
  | GetPageMeta => Axios.get_page_meta upstream env
  | PutPageMeta => Axios.put_page_meta upstream env
  | GetPageContent => Axios.get_page_content upstream env
  | PostPageContent => Axios.post_page_content upstream env
  | GetLiveItem => Axios.get_live_item upstream env
  | PatchLiveItem => Axios.patch_live_item upstream env
  | GetCustomCode => Axios.get_custom_code upstream env
  | PutCustomCode => Axios.put_custom_code upstream env
  | CmsItems p => Cms.cms_items upstream env p
  | CmsItemsRaw => Cms.cms_items_raw upstream env
  | AirtablePing => Cms.airtable_ping upstream env
  | FetchWebflow => Fetch.webflow upstream env
  | FetchTestAuth => Fetch.test_auth upstream env
  | Foxycart => Foxy.foxycart upstream refresh_token client_id client_secret
  | Proxy => Foxy.proxy upstream
  end.
End Table.

(** The path parameter a route checks, if any. *)
Definition path_param (r : Route) : option string :=
  match r with
  | GetPageMeta | PutPageMeta | GetPageContent | PostPageContent
  | GetCustomCode | PutCustomCode => Some "page_id"
  | GetLiveItem | PatchLiveItem => Some "collection_id"
  | _ => None
  end.

(** The body field a route checks, if any. *)
Definition body_field (r : Route) : option string :=
  match r with
  | PutPageMeta | PostPageContent | PatchLiveItem => Some "fieldData"
  | PutCustomCode => Some "customCode"
  | _ => None
  end.

(** How each route answers an upstream HTTP error. *)
Inductive ErrorPolicy : Type :=
  | MirrorAxios   (* catch block with [error.status || 500] and [error.data] *)
  | MirrorFetch   (* [res.status(response.status)] with the parsed error body *)
  | Fixed500.     (* catch block with a literal 500 and a fixed message *)

Definition error_policy (r : Route) : ErrorPolicy :=
  match r with
  | FetchWebflow | FetchTestAuth => MirrorFetch
  | Foxycart | Proxy => Fixed500
  | _ => MirrorAxios
  end.

End Routes.
Export Routes.

(** ** Vocabulary of the properties *)

(** The ECMAScript Object type: plain objects and arrays. *)
Definition is_object (v : JValue) : bool :=
  match v with JArr _ | JObj _ => true | _ => false end.

(** [req.body] after the body parsers of Express 4 ([express.json()],
    [express.urlencoded()]) have run: an object, empty when the request had
    no body, or an array; in any case neither [undefined] nor [null]. *)
Definition body_parsed (req : Request) : Prop := nullish (req_body req) = false.

(** A response surfaces an upstream error [s], [b]: status [s], and [b]
    under the key [details]. *)
Definition surfaces (resp : Response) (s : Z) (b : JValue) : Prop :=
  status resp = s /\
  exists fields, content resp = Json (JObj fields) /\ assoc "details" fields = Some b.

(** A JSON response with the given status and an [error] message, nothing
    else. *)
Definition error_only (resp : Response) (code : Z) : Prop :=
  status resp = code /\ exists msg, content resp = Json (JObj [("error", JStr msg)]).

(** What a route's policy promises for an upstream reply [s], [b]. *)
Definition error_response (p : ErrorPolicy) (s : Z) (b : RespBody) (resp : Response) : Prop :=
  match p with
  | MirrorAxios => surfaces resp s (axios_data b)
  | MirrorFetch =>
      match b with
      | JsonBody v => surfaces resp s v
      | TextBody _ => status resp = 500
      end
  | Fixed500 => error_only resp 500
  end.

(** What the two axios helpers return or throw for a given reply. *)
Definition helper_outcome (reply : Reply) : Res JValue :=
  match reply with
  | NetworkFailure =>
      Throw (ThrownObj 500 (JObj [("message", JStr "Internal Server Error")]))
  | HttpReply s b =>
      if is_2xx s then Ok (axios_data b) else Throw (ThrownObj s (axios_data b))
  end.

(** A computation that makes exactly the call [c] and ends as the helpers
    do. *)
Definition single_call {W : Type} (upstream : OutReq -> W -> Reply * W)
    (m : M W JValue) (c : OutReq) : Prop :=
  forall st,
    m st = (helper_outcome (fst (upstream c (world st))),
            mkSt (snd (upstream c (world st)))
                 (trace st ++ [(c, fst (upstream c (world st)))])).

(** The generic proxy as the specification words it: same method and body
    out, no [Host] and no [Origin] header out, and the upstream's JSON body
    back. *)
Definition proxy_forwards_faithfully {W : Type}
    (upstream : OutReq -> W -> Reply * W) (req : Request) (w : W) : Prop :=
  exists out reply,
    trace (snd (run (Foxy.proxy upstream req) w)) = [(out, reply)]
    /\ out_method out = req_method req
    /\ out_body out = JSON_stringify (req_body req)
    /\ Foxy.header_sent "Host" (out_headers out) = false
    /\ Foxy.header_sent "Origin" (out_headers out) = false
    /\ forall s v, reply = HttpReply s (JsonBody v) ->
         fst (run (Foxy.proxy upstream req) w) = Ok (res_json v).

(** The body rule as the specification words it: a request that was given a
    body carries it exactly when its method is neither GET nor HEAD. *)
Definition body_unless_get_or_head (out : OutReq) : Prop :=
  is_Some (out_body out) <-> includes ["GET"; "HEAD"] (toUpperCase (out_method out)) = false.

(** The projection as the specification words it: defined on every item
    list, with an output as long as the input. *)
Definition projection_total (p : Cms.Projection) (items : list JValue) : Prop :=
  exists out, Cms.cleaned p items = Ok out /\ List.length out = List.length items.

(** Where the value of an output key comes from. *)
Inductive Source : Type :=
  | ItemField (name : string)   (* [item.name] *)
  | DataField (name : string)   (* [item.fieldData.name] *)
  | Constant (v : JValue).      (* a value fixed by the route *)

Definition read_source (src : Source) (item : JValue) : JValue :=
  match src with
  | ItemField name => js_get_opt item name
  | DataField name => js_get_opt (js_get_opt item "fieldData") name
  | Constant v => v
  end.

(** The two projections as tables: output key, source. *)
Definition projection_table (p : Cms.Projection) : list (string * Source) :=
  match p with
  | Cms.First =>
      [ ("id", ItemField "id"); ("name", DataField "name");
        ("display", DataField "display"); ("type", DataField "type");
        ("company", DataField "company"); ("category", DataField "category");
        ("description", DataField "description"); ("keywords", DataField "keywords");
        ("link", DataField "linkto"); ("options", DataField "options");
        ("opts_ids", DataField "opts"); ("slug", DataField "slug");
        ("createdOn", ItemField "createdOn"); ("lastUpdated", ItemField "lastUpdated") ]
  | Cms.Second =>
      [ ("name", DataField "name"); ("slug", DataField "slug");
        ("collectionId", Constant (JStr (Cms.collection_id Cms.Second)));
        ("itemId", ItemField "id"); ("createdOn", ItemField "createdOn");
        ("updatedOn", ItemField "lastUpdated"); ("publishedOn", ItemField "lastPublished");
        ("type", DataField "type"); ("display", DataField "display");
        ("company", DataField "company"); ("category", DataField "category");
        ("options", DataField "options"); ("description", DataField "description");
        ("suggest", DataField "suggest"); ("linkto", DataField "linkto");
        ("co", DataField "co"); ("expl", DataField "expl");
        ("comp", DataField "comp"); ("acct", DataField "acct") ]
  end.

Definition allow_list (p : Cms.Projection) : list string := map fst (projection_table p).

(** The projection read off its table. *)
Definition tabulate (p : Cms.Projection) (item : JValue) : JValue :=
  JObj (map (fun row => (fst row, read_source (snd row) item)) (projection_table p)).

(** An item the projection can read: its [fieldData] is neither missing nor
    null. *)
Definition has_fieldData (item : JValue) : Prop :=
  nullish (js_get_opt item "fieldData") = false.

(** Start-up as the specification words it: a variant with one of its
    credentials unset exits instead of listening. *)
Definition exits_when_unset (v : Variant) (env : gmap string string) : Prop :=
  (exists name, In name (credentials v) /\ unset env name = true) ->
  exists code, startup v env = Exited code.

(** The variants that check their environment. *)
Definition checks_environment (v : Variant) : bool :=
  match v with
  | PagesServer | CmsProjected | CmsAirtable | CmsRaw => true
  | FoxyProxy | FetchServer => false
  end.

(** [refreshToken] as the claim words it: whatever the token endpoint
    answers, the function returns (the field, or [undefined]). *)
Definition refresh_always_returns {W : Type}
    (upstream : OutReq -> W -> Reply * W) (rt ci cs : string) (w : W) : Prop :=
  exists tok st, run (Foxy.refreshToken upstream rt ci cs) w = (Ok tok, st).

(** The calls of one invocation of the cart route, with their replies.  The
    first call is the token request: a POST to the token endpoint with the
    refresh grant and the client's credentials as form fields.  It stands
    alone when the refresh, or the parse of its reply, fails.  Otherwise it
    was answered with some JSON [v] and is followed at once by the forward:
    the inbound method, a URL under the cart API, and, when
    [v.access_token] is a string, that string as the bearer token. *)
Definition invocation_log (rt ci cs : string) (req : Request)
    (log : list (OutReq * Reply)) : Prop :=
  exists token_call,
    out_method token_call = "POST"
    /\ out_url token_call = "https://api.foxycart.com/token"
    /\ out_body token_call
        = Some (FormText [ ("grant_type", "refresh_token");
                           ("refresh_token", rt);
                           ("client_id", ci);
                           ("client_secret", cs) ])
    /\ ((exists reply, log = [(token_call, reply)])
        \/ (exists s v forward reply,
              log = [ (token_call, HttpReply s (JsonBody v)); (forward, reply) ]
              /\ nullish v = false
              /\ out_method forward = req_method req
              /\ String.prefix "https://api.foxycart.com/" (out_url forward) = true
              /\ forall t,
                   js_get_opt v "access_token" = JStr t ->
                   assoc "Authorization" (out_headers forward)
                     = Some (JStr ("Bearer " +:+ t)))).

(** ** Express: which handler a request reaches *)

Module Express.
















Section Dispatch.
Context {W : Type}.
Variable upstream : OutReq -> W -> Reply * W.
Variable env : gmap string string.
Variable decode : string -> option string.

End Dispatch.
End Express.

Export Express.





(** A value that JSON can write down: no [undefined] at any depth. *)
Fixpoint is_json (v : JValue) : bool :=
  match v with
  | JUndefined => false
  | JArr items => forallb is_json items
  | JObj fields => forallb (fun kv => match kv with (_, x) => is_json x end) fields
  | _ => true
  end.


(** ** Concrete worlds and requests used by the examples *)

(** An upstream that answers every call with the same reply. *)
Definition always (reply : Reply) : OutReq -> unit -> Reply * unit :=
  fun _ _ => (reply, tt).

(** An upstream that hands out a new token on every call to the token
    endpoint (the world counts them) and answers anything else with 200. *)
Definition counting_tokens : OutReq -> nat -> Reply * nat :=
  fun r n =>
    if String.eqb (out_url r) "https://api.foxycart.com/token"
    then (HttpReply 200 (JsonBody (JObj [("access_token", JStr ("t" +:+ pretty n))])), S n)
    else (HttpReply 200 (JsonBody (JObj [("ok", JBool true)])), n).

Definition no_env : gmap string string := ∅.

Definition full_env : gmap string string :=
  <["WEBFLOW_API_KEY" := "key"]> (<["SITE_ID" := "site"]> ∅).

(** A cart API that grants a token and then knows no such resource. *)
Definition cart_not_found : OutReq -> unit -> Reply * unit :=
  fun r _ =>
    if String.eqb (out_url r) "https://api.foxycart.com/token"
    then (HttpReply 200 (JsonBody (JObj [("access_token", JStr "t0")])), tt)
    else (HttpReply 404 (JsonBody (JObj [("message", JStr "Not Found")])), tt).

(** GET /proxy/https://api.example.com/things/1 *)
Definition req_proxy_get : Request :=
  mkRequest "GET" [("0", "https://api.example.com/things/1")]
    [("host", "proxy.example.com")] (JObj []).

Definition not_found : Reply :=
  HttpReply 404 (JsonBody (JObj [("message", JStr "Not Found")])).

Definition created : Reply :=
  HttpReply 201 (JsonBody (JObj [("id", JStr "i1")])).

(** PATCH /proxy/https://api.example.com/things/1 with a JSON body. *)
Definition req_proxy_patch : Request :=
  mkRequest "PATCH"
    [("0", "https://api.example.com/things/1")]
    [("host", "proxy.example.com"); ("origin", "https://www.sportdogfood.com");
     ("content-type", "application/json")]
    (JObj [("name", JStr "kibble")]).

(** POST /proxy/https://api.example.com/things with a JSON body. *)
Definition req_proxy_post : Request :=
  mkRequest "POST"
    [("0", "https://api.example.com/things")]
    [("content-type", "application/json")]
    (JObj [("name", JStr "kibble")]).

(** GET /foxycart/carts/42 *)
Definition req_foxy_get : Request :=
  mkRequest "GET" [("endpoint", "carts"); ("0", "/42")] [] (JObj []).

(** GET /webflow/pages/p1/meta, and the same route with an empty [page_id]. *)
Definition req_page : Request :=
  mkRequest "GET" [("page_id", "p1")] [] (JObj []).
Definition req_no_page : Request :=
  mkRequest "GET" [("page_id", "")] [] (JObj []).

(** PUT /webflow/pages/p1/meta with a string, and with an array, as
    [fieldData]. *)
Definition req_put_string : Request :=
  mkRequest "PUT" [("page_id", "p1")] [] (JObj [("fieldData", JStr "title")]).
Definition req_put_array : Request :=
  mkRequest "PUT" [("page_id", "p1")] [] (JObj [("fieldData", JArr [])]).

(** POST /webflow with an empty body. *)
Definition req_webflow_empty : Request :=
  mkRequest "POST" [] [] (JObj []).

(** Collection items: one well-formed, one without [fieldData]. *)
Definition item_ok : JValue :=
  JObj [ ("id", JStr "i1"); ("collectionId", JStr "other");
         ("createdOn", JStr "2024-01-01");
         ("fieldData", JObj [("name", JStr "Kibble"); ("slug", JStr "kibble")]) ].
Definition item_bare : JValue := JObj [("id", JStr "x")].

(** ** Vocabulary of the further properties *)

(** The most calls a route makes for one request. *)
Definition max_calls (r : Route) : nat :=
  match r with Foxycart => 2%nat | _ => 1%nat end.

(** The environment variables a variant tests before it listens. *)
Definition required_env (v : Variant) : list string :=
  match v with
  | PagesServer | CmsProjected | CmsRaw => ["WEBFLOW_API_KEY"; "SITE_ID"]
  | CmsAirtable =>
      ["WEBFLOW_API_KEY"; "SITE_ID"; "AIRTABLE_API_KEY"; "AIRTABLE_BASE_ID"]
  | FoxyProxy | FetchServer => []
  end.

(** A thrown JavaScript error object, as opposed to the [{ status, data }]
    literal of the request helpers. *)
Definition is_js_error (e : Thrown) : Prop :=
  exists name message, e = JsError name message.

(** A call to the CMS API made with the key [key]. *)
Definition webflow_call (key : string) (c : OutReq) : Prop :=
  assoc "authorization" (out_headers c) = Some (JStr ("Bearer " +:+ key))
  /\ String.prefix "https://api.webflow.com/" (out_url c) = true.

(** The routes that talk to the CMS API. *)
Definition webflow_route (r : Route) : bool :=
  match r with
  | AirtablePing | Foxycart | Proxy => false
  | _ => true
  end.

(** What each kind of route answers when no reply came. *)
Definition network_failure_response (p : ErrorPolicy) (resp : Response) : Prop :=
  match p with
  | MirrorAxios =>
      surfaces resp 500 (JObj [("message", JStr "Internal Server Error")])
  | MirrorFetch => status resp = 500
  | Fixed500 => error_only resp 500
  end.

(** Header names as Node delivers them. *)
Definition lower_case_names (req : Request) : Prop :=
  Forall (fun kv => toLowerCase (fst kv) = fst kv) (req_headers req).

(** The replies of the token endpoint on which [refreshToken] throws: none,
    a body that is not JSON, or the JSON [null]. *)
Definition refresh_failed (reply : Reply) : Prop :=
  match reply with
  | NetworkFailure => True
  | HttpReply _ (TextBody _) => True
  | HttpReply _ (JsonBody v) => nullish v = true
  end.

(** The response of the [catch] block of the cart route. *)
Definition foxy_error : Response :=
  res_status_json 500 (JObj [("error", JStr "Error fetching data from FoxyCart API")]).

(** The response of GET /cms/collection/items when its [try] block throws a
    JavaScript error: [error.status] and [error.data] are [undefined]. *)
Definition cms_failure : Response :=
  res_status_json 500
    (JObj [ ("success", JBool false);
            ("message", JStr "Failed to fetch CMS items.");
            ("details", JUndefined) ]).

(** How a request helper ends, given the log of its run: it returns the
    data of a 2xx reply, or throws a [{ status, data }] whose status is not
    2xx; either way after exactly one call. *)
Definition helper_result (res : Res JValue) (log : list (OutReq * Reply)) : Prop :=
  match res with
  | Ok v =>
      exists c s b, log = [(c, HttpReply s b)] /\ is_2xx s = true /\ v = axios_data b
  | Throw e =>
      exists c reply s d,
        log = [(c, reply)] /\ e = ThrownObj s d /\ is_2xx s = false
  end.

(** PUT /webflow/pages/p1/meta with an object as [fieldData]. *)
Definition req_put_object : Request :=
  mkRequest "PUT" [("page_id", "p1")] []
    (JObj [("fieldData", JObj [("title", JStr "Home")])]).

(** POST /webflow with a [fieldData] of two fields. *)
Definition req_webflow_named : Request :=
  mkRequest "POST" [] []
    (JObj [("fieldData", JObj [("name", JStr "Kibble"); ("price", JNum 5)])]).

(** Payloads of the collection-items endpoint and of the spreadsheet. *)
Definition items_payload : JValue := JObj [("items", JArr [item_ok])].
Definition bare_payload : JValue := JObj [("items", JArr [item_ok; item_bare])].
Definition records_payload : JValue :=
  JObj [("records", JArr [JObj [("id", JStr "rec1")]])].

(* ===================================================================== *)
(** * Properties *)
(* ===================================================================== *)

Example js_samples :
  truthy (JArr []) = true /\ typeof (JArr []) = "object"
  /\ typeof JNull = "object" /\ truthy JNull = false
  /\ js_to_string JUndefined = "undefined"
  /\ js_to_string (JNum (-42)) = "-42"
  /\ js_to_string (JArr [JNum 1; JNull; JStr "a"]) = "1,,a"
  /\ toUpperCase "patch" = "PATCH"
  /\ toLowerCase "Content-Type" = "content-type".
Proof. repeat split; reflexivity. Qed.

(** Run a node-fetch handler against the upstream [up]: every call is a case
    split on the reply, every [ok] test a case split on the status. *)
Ltac fetch_steps up :=
  cbv beta iota delta [run try_catch bind fetch send json lift ret throw world trace calls];
  repeat match goal with
    | |- context [up ?c0 ?w0] =>
        destruct (up c0 w0) as [[|? [?|?]] ?]; cbn
    | |- context [is_2xx ?s0] => destruct (is_2xx s0) eqn:?; cbn
    | |- context [match ?r with Ok _ => _ | Throw _ => _ end] =>
        destruct r; cbn
    end.

(** ** Reading fields *)

Lemma js_get_defined v k :
  nullish v = false -> js_get v k = Ok (js_get_opt v k).
Proof. destruct v; simpl; intros H; try discriminate H; reflexivity. Qed.

Lemma js_get_nullish v k :
  nullish v = true -> exists msg, js_get v k = Throw (JsError "TypeError" msg).
Proof. destruct v; simpl; intros H; try discriminate H; eauto. Qed.

(** The guard [!v || typeof v !== 'object'] lets through exactly the values
    of Object type, arrays included. *)
Lemma object_guard v :
  negb (truthy v) || negb (String.eqb (typeof v) "object") = negb (is_object v).
Proof. destruct v as [| |[]|n|s| |]; simpl; try reflexivity.
  - destruct (Z.eqb n 0); reflexivity.
  - destruct (String.eqb s ""); reflexivity.
Qed.

Lemma param_falsy req name :
  assoc name (req_params req) = None \/ assoc name (req_params req) = Some "" ->
  truthy (param req name) = false.
Proof. unfold param. intros [-> | ->]; reflexivity. Qed.

(** ** Local validation *)

Section Validation.
Context {W : Type}.
Variable upstream : OutReq -> W -> Reply * W.
Variable env : gmap string string.
Variables refresh_token client_id client_secret : string.

#[local] Abbreviation handler :=
  (handler upstream env refresh_token client_id client_secret).

(** The handlers' own check, taken alone: every handler that reads
    [page_id] or [collection_id] answers a request object whose parameter is
    missing or empty with exactly
    [400 { error: '<name> is required.' }], and neither calls an upstream
    nor touches the world. *)
Theorem missing_path_param_is_400 (r : Route) (name : string) (req : Request) (w : W) :
  path_param r = Some name ->
  assoc name (req_params req) = None \/ assoc name (req_params req) = Some "" ->
  body_parsed req ->
  run (handler r req) w =
    (Ok (res_status_json 400 (JObj [("error", JStr (name +:+ " is required."))])),
     mkSt w []).
Proof.
  intros Hr Hp Hb. apply param_falsy in Hp.
  destruct r; simpl in Hr; try discriminate Hr;
    injection Hr as <-; unfold run; simpl;
    unfold Axios.get_page_meta, Axios.put_page_meta, Axios.get_page_content,
      Axios.post_page_content, Axios.get_live_item, Axios.patch_live_item,
      Axios.get_custom_code, Axios.put_custom_code, bind, lift;
    rewrite ?(js_get_defined _ _ Hb), ?Hp; reflexivity.
Qed.

(** The guard of the four checking routes: each answers 400 when
    the body omits the field or gives it a value that is not of Object type
    ([undefined], [null], a boolean, a number, a string), and calls no
    upstream. *)
Theorem non_object_field_is_400 (r : Route) (field : string) (req : Request) (w : W) :
  body_field r = Some field ->
  body_parsed req ->
  is_object (js_get_opt (req_body req) field) = false ->
  exists resp,
    run (handler r req) w = (Ok resp, mkSt w []) /\ error_only resp 400.
Proof.
  intros Hr Hb Hv.
  destruct r; simpl in Hr; try discriminate Hr;
    injection Hr as <-; unfold run; simpl;
    unfold Axios.put_page_meta, Axios.post_page_content, Axios.patch_live_item,
      Axios.put_custom_code, bind, lift;
    rewrite ?(js_get_defined _ _ Hb), ?object_guard, ?Hv; simpl;
    match goal with
    | |- context [truthy ?p] => destruct (truthy p)
    end; simpl; eexists; (split; [reflexivity | split; [reflexivity | eauto]]).
Qed.

(** C9. POST /webflow of the node-fetch server: when [fieldData] is missing
    (or null) the handler throws a TypeError out of its body, before the
    [try], so it sends no response, makes no call, and its [catch] block is
    not entered. *)
Theorem webflow_missing_fieldData_throws (req : Request) (w : W) :
  nullish (js_get_opt (req_body req) "fieldData") = true ->
  exists msg,
    run (Fetch.webflow upstream env req) w = (Throw (JsError "TypeError" msg), mkSt w []).
Proof.
  intros Hv. unfold run, Fetch.webflow, bind, lift.
  destruct (nullish (req_body req)) eqn:Hb.
  - destruct (js_get_nullish _ "fieldData" Hb) as [msg ->]. eauto.
  - rewrite (js_get_defined _ _ Hb).
    destruct (js_get_nullish _ "name" Hv) as [msg ->]. eauto.
Qed.
End Validation.

(** ** The request helpers *)

Section Helpers.
Context {W : Type}.
Variable upstream : OutReq -> W -> Reply * W.
Variable env : gmap string string.

Lemma axios_single_call (c : OutReq) :
  single_call upstream (try_catch (axios upstream c) Axios.rethrow) c.
Proof.
  intros st. unfold try_catch, axios, bind, send.
  destruct (upstream c (world st)) as [[|s b] w']; simpl; [reflexivity|].
  destruct (is_2xx s); reflexivity.
Qed.

Lemma makeWebflowRequest_single_call (method endpoint : string) (data : JValue) :
  single_call upstream (Axios.makeWebflowRequest upstream env method endpoint data)
    (Axios.webflow_config env method endpoint (if data is JUndefined then JNull else data)).
Proof. apply axios_single_call. Qed.

Lemma makeAirtableRequest_single_call (method path : string) (params data : JValue) :
  single_call upstream (Cms.makeAirtableRequest upstream env method path params data)
    (Cms.airtable_config env method path
       (if params is JUndefined then JNull else params)
       (if data is JUndefined then JNull else data)).
Proof. apply axios_single_call. Qed.

Lemma assoc_app_fresh {A : Type} (k : string) (l : list (string * A)) (v : A) :
  assoc k l = None -> assoc k (l ++ [(k, v)]) = Some v.
Proof.
  induction l as [|[k' v'] l IH]; simpl.
  - rewrite String.eqb_refl. reflexivity.
  - destruct (String.eqb k k'); [discriminate | exact IH].
Qed.

(** The common shape of an axios route: one helper call, a continuation
    that makes no call of its own, and the shared [catch] block. *)
Lemma relay_surfaces (m : M W JValue) (k : JValue -> M W Response)
    (fixed : list (string * JValue)) (c0 : OutReq) (st : St W)
    (c : OutReq) (s : Z) (b : RespBody) :
  single_call upstream m c0 ->
  (forall v st', trace (snd (try_catch (k v) (Axios.fail_with fixed) st')) = trace st') ->
  assoc "details" fixed = None ->
  last (trace (snd (try_catch (bind m k) (Axios.fail_with fixed) st)))
    = Some (c, HttpReply s b) ->
  is_2xx s = false -> s <> 0 ->
  exists resp,
    fst (try_catch (bind m k) (Axios.fail_with fixed) st) = Ok resp
    /\ surfaces resp s (axios_data b).
Proof.
  intros Hm Hk Hfixed Hlast H2xx Hs.
  assert (Hrun : try_catch (bind m k) (Axios.fail_with fixed) st =
     match helper_outcome (fst (upstream c0 (world st))) with
     | Ok v => try_catch (k v) (Axios.fail_with fixed)
                 (mkSt (snd (upstream c0 (world st)))
                       (trace st ++ [(c0, fst (upstream c0 (world st)))]))
     | Throw e => Axios.fail_with fixed e
                 (mkSt (snd (upstream c0 (world st)))
                       (trace st ++ [(c0, fst (upstream c0 (world st)))]))
     end).
  { unfold try_catch at 1, bind. rewrite (Hm st).
    destruct (helper_outcome _); [|reflexivity].
    unfold try_catch. destruct (k a _) as [[]]; reflexivity. }
  rewrite Hrun in *. clear Hrun.
  destruct (upstream c0 (world st)) as [[|s' b'] w']; simpl in *.
  - rewrite last_snoc in Hlast. discriminate Hlast.
  - destruct (is_2xx s') eqn:E; simpl in *.
    + rewrite Hk in Hlast. simpl in Hlast. rewrite last_snoc in Hlast.
      injection Hlast as _ -> _. congruence.
    + rewrite last_snoc in Hlast. injection Hlast as _ -> ->.
      eexists; split; [reflexivity|]. split; simpl.
      * destruct (Z.eqb_spec s 0); [contradiction | reflexivity].
      * eexists; split; [reflexivity | apply assoc_app_fresh, Hfixed].
Qed.
End Helpers.

(** ** Upstream errors *)

Section UpstreamErrors.
Context {W : Type}.
Variable upstream : OutReq -> W -> Reply * W.
Variable env : gmap string string.
Variables refresh_token client_id client_secret : string.

#[local] Abbreviation handler :=
  (handler upstream env refresh_token client_id client_secret).

Lemma bind_lift {A B : Type} (r : Res A) (k : A -> M W B) (st : St W) :
  bind (lift r) k st = match r with Ok a => k a st | Throw e => (Throw e, st) end.
Proof. unfold bind, lift. destruct r; reflexivity. Qed.

(** Case analysis on the pure steps of a handler. *)
Ltac pure_steps :=
  repeat first
    [ rewrite bind_lift
    | match goal with
      | |- context [match ?r with Ok _ => _ | Throw _ => _ end] =>
          destruct r; simpl
      | |- context [if ?b then _ else _] => destruct b; simpl
      end ].

Ltac pure_tail :=
  intros; unfold try_catch, bind, lift, Axios.fail_with, ret;
  repeat (match goal with
          | |- context [match ?r with Ok _ => _ | Throw _ => _ end] =>
              destruct r; simpl
          end);
  reflexivity.

Ltac relay :=
  intros Hlast;
  first
    [ discriminate Hlast
    | eapply relay_surfaces;
      [ first [ apply makeWebflowRequest_single_call
              | apply makeAirtableRequest_single_call ]
      | pure_tail | reflexivity | exact Hlast | assumption | assumption ] ].

Ltac settle :=
  let Hlast := fresh "Hlast" in
  intros Hlast; inversion Hlast; subst; try congruence;
  eexists; (split; [reflexivity|]); repeat split; eauto.

(** C1 (amended). When the last upstream call of a handler was answered with
    a non-2xx status [s] and body [b]: the axios routes respond with status
    [s] and [b] under [details]; the node-fetch CMS routes do so when [b] is
    JSON and respond 500 otherwise; /foxycart/* and /proxy/* respond 500
    with a fixed [error] message and nothing else. *)
Theorem upstream_error_response (r : Route) (req : Request) (w : W)
    (c : OutReq) (s : Z) (b : RespBody) :
  last (trace (snd (run (handler r req) w))) = Some (c, HttpReply s b) ->
  is_2xx s = false ->
  s <> 0 ->
  exists resp,
    fst (run (handler r req) w) = Ok resp
    /\ error_response (error_policy r) s b resp.
Proof.
  intros Hlast H2xx Hs. revert Hlast. unfold run.
  destruct r; simpl error_policy; simpl Routes.handler; unfold error_response.
  - unfold Axios.test_auth. relay.
  - unfold Axios.get_page_meta. destruct (truthy _); simpl; relay.
  - unfold Axios.put_page_meta. pure_steps; relay.
  - unfold Axios.get_page_content. destruct (truthy _); simpl; relay.
  - unfold Axios.post_page_content. pure_steps; relay.
  - unfold Axios.get_live_item. destruct (truthy _); simpl; relay.
  - unfold Axios.patch_live_item. pure_steps; relay.
  - unfold Axios.get_custom_code. destruct (truthy _); simpl; relay.
  - unfold Axios.put_custom_code. pure_steps; relay.
  - unfold Cms.cms_items. relay.
  - unfold Cms.cms_items_raw. relay.
  - unfold Cms.airtable_ping. relay.
  - unfold Fetch.webflow. pure_steps; try (intros Hlast; discriminate Hlast).
    fetch_steps upstream; settle.
  - unfold Fetch.test_auth. fetch_steps upstream; settle.
  - unfold Foxy.foxycart, Foxy.refreshToken, Foxy.relay_reply.
    fetch_steps upstream; settle.
  - unfold Foxy.proxy, Foxy.relay_reply. fetch_steps upstream; settle.
Qed.
End UpstreamErrors.

(** ** Forwarding *)

Section Forwarding.
Context {W : Type}.
Variable upstream : OutReq -> W -> Reply * W.
Variable env : gmap string string.
Variables refresh_token client_id client_secret : string.

Lemma single_call_calls (m : M W JValue) (c : OutReq) (w : W) :
  single_call upstream m c -> calls (snd (run m w)) = [c].
Proof. intros Hm. unfold run. rewrite (Hm _). reflexivity. Qed.

Lemma truthy_defined (data : JValue) :
  truthy data = true -> (if data is JUndefined then JNull else data) = data.
Proof. destruct data; simpl; intros H; try discriminate H; reflexivity. Qed.

(** C2 (amended). The generic proxy sends exactly one request, to the URL
    taken from the path and with the inbound method; the body is the JSON
    text of [req.body] when the method is POST or PUT and absent otherwise;
    a 2xx reply with a JSON body is returned to the caller as it is. *)
Theorem proxy_forwarding (req : Request) (w : W) :
  let out := Foxy.proxy_request req in
  calls (snd (run (Foxy.proxy upstream req) w)) = [out]
  /\ out_url out = js_to_string (param req "0")
  /\ out_method out = req_method req
  /\ out_body out =
       (if includes ["POST"; "PUT"] (req_method req)
        then JSON_stringify (req_body req) else None)
  /\ forall s v w',
       upstream out w = (HttpReply s (JsonBody v), w') ->
       is_2xx s = true ->
       fst (run (Foxy.proxy upstream req) w) = Ok (res_json v).
Proof.
  cbv zeta.
  split; [|split; [reflexivity | split; [reflexivity | split; [reflexivity|]]]].
  - unfold Foxy.proxy, Foxy.relay_reply. fetch_steps upstream; reflexivity.
  - intros s v w' Hup H2xx. unfold Foxy.proxy, Foxy.relay_reply.
    cbv beta iota delta [run try_catch bind fetch send json ret throw world trace].
    rewrite Hup. cbn. rewrite H2xx. reflexivity.
Qed.

(** C3 (amended). A truthy [data] handed to [makeWebflowRequest] or
    [makeAirtableRequest] is in the request sent exactly when the
    upper-cased method is neither GET nor HEAD.  The cart route and the
    generic route use another rule: the body goes out exactly when the
    method is POST or PUT. *)
Theorem body_forwarding_rule (data : JValue) :
  truthy data = true ->
  (forall method endpoint w,
      let c := Axios.webflow_config env method endpoint data in
      calls (snd (run (Axios.makeWebflowRequest upstream env method endpoint data) w)) = [c]
      /\ out_body c = (if includes ["GET"; "HEAD"] (toUpperCase method)
                       then None else Some (JsonData data)))
  /\ (forall method path params w,
      let c := Cms.airtable_config env method path
                 (if params is JUndefined then JNull else params) data in
      calls (snd (run (Cms.makeAirtableRequest upstream env method path params data) w)) = [c]
      /\ out_body c = (if includes ["GET"; "HEAD"] (toUpperCase method)
                       then None else Some (JsonData data)))
  /\ (forall req tok,
      req_body req = data ->
      let rule := if includes ["POST"; "PUT"] (req_method req)
                  then Some (JsonText data) else None in
      out_body (Foxy.proxy_request req) = rule
      /\ out_body (Foxy.foxy_request tok req) = rule).
Proof.
  intros Hdata.
  assert (Hhelper : forall method,
    (if truthy data && negb (includes ["GET"; "HEAD"] (toUpperCase method))
     then Some (JsonData data) else None)
    = (if includes ["GET"; "HEAD"] (toUpperCase method)
       then None else Some (JsonData data))).
  { intros method. rewrite Hdata. destruct (includes _ _); reflexivity. }
  assert (Hproxy : forall req, req_body req = data ->
    Foxy.forwarded_body req
    = (if includes ["POST"; "PUT"] (req_method req)
       then Some (JsonText data) else None)).
  { intros req Hreq. unfold Foxy.forwarded_body. rewrite Hreq. clear Hhelper.
    destruct (includes _ _); [|reflexivity].
    unfold JSON_stringify. revert Hdata. clear.
    destruct data; intros Hdata; try reflexivity; discriminate Hdata. }
  split; [|split].
  - intros method endpoint w. cbv zeta. split.
    + erewrite single_call_calls by apply makeWebflowRequest_single_call.
      rewrite (truthy_defined _ Hdata). reflexivity.
    + apply Hhelper.
  - intros method path params w. cbv zeta. split.
    + erewrite single_call_calls by apply makeAirtableRequest_single_call.
      rewrite (truthy_defined _ Hdata). reflexivity.
    + apply Hhelper.
  - intros req tok Hreq. cbv zeta. split; apply Hproxy, Hreq.
Qed.

(** The header object of the generic route still carries the inbound
    [host]: Node hands the names over in lower case, the route blanks the
    capitalised keys. *)
Lemma proxy_keeps_lowercase_host :
  Foxy.proxy_headers req_proxy_patch =
    [ ("host", JStr "proxy.example.com");
      ("origin", JStr "https://www.sportdogfood.com");
      ("content-type", JStr "application/json");
      ("Host", JUndefined); ("Origin", JUndefined) ]
  /\ Foxy.header_sent "Host" (Foxy.proxy_headers req_proxy_patch) = true.
Proof. split; reflexivity. Qed.
End Forwarding.

(** C2, as stated, fails: a PATCH with a JSON body goes out without body (and
    with the inbound [host] and [origin] still in the header object), and a
    404 from the upstream comes back as a fixed 500. *)
Lemma proxy_patch_not_faithful :
  ~ proxy_forwards_faithfully (always not_found) req_proxy_patch tt.
Proof.
  intros (out & reply & Htr & _ & Hbody & _).
  cbn in Htr. injection Htr as <- _. discriminate Hbody.
Qed.

Lemma proxy_forwarding_witness :
  out_body (Foxy.proxy_request req_proxy_post)
    = Some (JsonText (JObj [("name", JStr "kibble")]))
  /\ fst (run (Foxy.proxy (always created) req_proxy_post) tt)
     = Ok (res_json (JObj [("id", JStr "i1")])).
Proof.
  destruct (proxy_forwarding (always created) req_proxy_post tt)
    as (_ & _ & _ & Hbody & Hreply).
  split; [exact Hbody | apply (Hreply 201 _ tt); reflexivity].
Defined.

(** C3, as stated, fails on the generic route: the body of a PATCH is left
    out although the method is neither GET nor HEAD. *)
Lemma proxy_patch_drops_body :
  ~ body_unless_get_or_head (Foxy.proxy_request req_proxy_patch).
Proof.
  intros [_ H]. destruct (H eq_refl) as [x Hx]. discriminate Hx.
Qed.

Lemma body_forwarding_rule_witness :
  out_body (Axios.webflow_config no_env "PATCH" "/collections/c1/items/live"
              (JObj [("fieldData", JObj [])]))
    = Some (JsonData (JObj [("fieldData", JObj [])]))
  /\ out_body (Axios.webflow_config no_env "get" "/pages/p1"
              (JObj [("fieldData", JObj [])]))
    = None.
Proof.
  destruct (body_forwarding_rule (always created) no_env
              (JObj [("fieldData", JObj [])]) eq_refl) as (Hw & _ & _).
  split.
  - exact (proj2 (Hw "PATCH" "/collections/c1/items/live" tt)).
  - exact (proj2 (Hw "get" "/pages/p1" tt)).
Defined.

(** ** The token refresh *)

Lemma prefix_append (s t : string) : String.prefix s (s +:+ t) = true.
Proof.
  induction s as [|a s IH]; simpl.
  - destruct t; reflexivity.
  - destruct (ascii_dec a a) as [_|Hne]; [exact IH | contradiction].
Qed.

Section TokenRefresh.
Context {W : Type}.
Variable upstream : OutReq -> W -> Reply * W.
Variables refresh_token client_id client_secret : string.

#[local] Abbreviation token_request :=
  (Foxy.token_request refresh_token client_id client_secret).
#[local] Abbreviation refreshToken :=
  (Foxy.refreshToken upstream refresh_token client_id client_secret).
#[local] Abbreviation foxycart :=
  (Foxy.foxycart upstream refresh_token client_id client_secret).

(** One invocation, from any state: what it appends to the log. *)
Lemma foxycart_log (req : Request) (st : St W) :
  exists log : list (OutReq * Reply),
    trace (snd (foxycart req st)) = (trace st ++ log)%list
    /\ invocation_log refresh_token client_id client_secret req log.
Proof.
  assert (Halone : forall reply,
    invocation_log refresh_token client_id client_secret req
      [(token_request, reply)]).
  { intros reply. exists token_request.
    split; [reflexivity | split; [reflexivity | split; [reflexivity|]]].
    left. eauto. }
  unfold Foxy.foxycart, Foxy.refreshToken, Foxy.relay_reply.
  destruct st as [w tr].
  cbv beta iota delta [try_catch bind fetch send json lift ret throw world trace].
  destruct (upstream token_request w) as [[|s1 [v1|t1]] w1]; cbn;
    try (eexists; split; [reflexivity | apply Halone]; fail).
  destruct (nullish v1) eqn:Hnull.
  { destruct (js_get_nullish v1 "access_token" Hnull) as [msg ->]. cbn.
    eexists; split; [reflexivity | apply Halone]. }
  rewrite (js_get_defined v1 "access_token" Hnull). cbn.
  assert (Hpair : forall reply,
    invocation_log refresh_token client_id client_secret req
      [ (token_request, HttpReply s1 (JsonBody v1));
        (Foxy.foxy_request (js_get_opt v1 "access_token") req, reply) ]).
  { intros reply. exists token_request.
    split; [reflexivity | split; [reflexivity | split; [reflexivity|]]].
    right. exists s1, v1, (Foxy.foxy_request (js_get_opt v1 "access_token") req), reply.
    split; [reflexivity | split; [exact Hnull | split; [reflexivity | split]]].
    - apply prefix_append.
    - intros t Ht. rewrite Ht. reflexivity. }
  destruct (upstream (Foxy.foxy_request (js_get_opt v1 "access_token") req) w1)
    as [[|s2 [v2|t2]] w2]; cbn;
    try destruct (is_2xx s2); cbn; rewrite <- app_assoc;
    (eexists; split; [reflexivity | apply Hpair]).
Qed.

(** C6. Whatever requests arrive and whatever the upstream answers, the log
    of the cart route is a sequence of per-request blocks, in arrival order;
    each block starts with a POST of the refresh grant to the token
    endpoint, and a forward to the cart API comes only as the second call of
    a block, right after that block's token request and carrying, as its
    bearer token, the [access_token] string that this very request
    returned. *)
Theorem foxycart_token_before_every_forward (reqs : list Request) (st : St W) :
  exists logs : list (list (OutReq * Reply)),
    trace (snd (Foxy.serve foxycart reqs st)) = (trace st ++ List.concat logs)%list
    /\ Forall2 (invocation_log refresh_token client_id client_secret) reqs logs.
Proof.
  revert st. induction reqs as [|req reqs IH]; intros st; simpl.
  - exists []. simpl. rewrite app_nil_r. split; [reflexivity | constructor].
  - destruct (foxycart_log req st) as (log & Hlog & Hinv).
    destruct (foxycart req st) as [r st'].
    destruct (IH st') as (logs & Hlogs & Hall).
    destruct (Foxy.serve foxycart reqs st') as [rs st''].
    simpl in *. exists (log :: logs). split.
    + rewrite Hlogs, Hlog. simpl. rewrite app_assoc. reflexivity.
    + constructor; assumption.
Qed.

(** C10 (amended). [refreshToken] looks neither at the status nor at the
    shape of a JSON reply: for every status and every JSON body other than
    [null] it returns the body's [access_token], [undefined] when the field
    is absent; in that case the cart route still forwards, with
    [Authorization: Bearer undefined]. *)
Theorem refreshToken_unvalidated (req : Request) (w w1 : W) (s : Z) (v : JValue) :
  upstream token_request w = (HttpReply s (JsonBody v), w1) ->
  nullish v = false ->
  run refreshToken w
    = (Ok (js_get_opt v "access_token"),
       mkSt w1 [(token_request, HttpReply s (JsonBody v))])
  /\ (js_get_opt v "access_token" = JUndefined ->
      exists out,
        calls (snd (run (foxycart req) w)) = [token_request; out]
        /\ out = Foxy.foxy_request JUndefined req
        /\ assoc "Authorization" (out_headers out) = Some (JStr "Bearer undefined")).
Proof.
  intros Hup Hv. split.
  - unfold Foxy.refreshToken.
    cbv beta iota delta [run try_catch bind fetch send json lift ret throw world trace].
    rewrite Hup. cbn. rewrite (js_get_defined _ _ Hv). reflexivity.
  - intros Hfield. exists (Foxy.foxy_request JUndefined req).
    split; [|split; reflexivity].
    unfold Foxy.foxycart, Foxy.refreshToken, Foxy.relay_reply.
    cbv beta iota delta
      [run try_catch bind fetch send json lift ret throw world trace calls].
    rewrite Hup. cbn. rewrite (js_get_defined _ _ Hv), Hfield. cbn.
    destruct (upstream (Foxy.foxy_request JUndefined req) w1)
      as [[|s2 [v2|t2]] w2]; cbn; try destruct (is_2xx s2); reflexivity.
Qed.
End TokenRefresh.

(** Two requests in a row on an upstream that mints a new token per call:
    each forward carries the token of its own block. *)
Example foxycart_two_requests :
  map (fun c => (out_url c, assoc "Authorization" (out_headers c)))
      (calls (snd (Foxy.serve (Foxy.foxycart counting_tokens "r" "c" "s")
                     [req_foxy_get; req_foxy_get] (mkSt 0%nat []))))
  = [ ("https://api.foxycart.com/token", None);
      ("https://api.foxycart.com/carts/42", Some (JStr "Bearer t0"));
      ("https://api.foxycart.com/token", None);
      ("https://api.foxycart.com/carts/42", Some (JStr "Bearer t1")) ].
Proof. vm_compute. reflexivity. Qed.

(** C10, as stated, fails: a reply that is not JSON, or is the JSON [null],
    makes [refreshToken] throw instead of returning. *)
Lemma refreshToken_can_throw :
  ~ refresh_always_returns
      (always (HttpReply 503 (TextBody "Service Unavailable"))) "r" "c" "s" tt
  /\ ~ refresh_always_returns
      (always (HttpReply 200 (JsonBody JNull))) "r" "c" "s" tt.
Proof.
  split; intros (tok & st & H); cbn in H; discriminate H.
Qed.

Lemma refreshToken_unvalidated_witness :
  run (Foxy.refreshToken
         (always (HttpReply 401 (JsonBody (JObj [("error", JStr "invalid_grant")]))))
         "r" "c" "s") tt
    = (Ok JUndefined,
       mkSt tt [(Foxy.token_request "r" "c" "s",
                 HttpReply 401 (JsonBody (JObj [("error", JStr "invalid_grant")])))])
  /\ exists out,
       calls (snd (run (Foxy.foxycart
         (always (HttpReply 401 (JsonBody (JObj [("error", JStr "invalid_grant")]))))
         "r" "c" "s" req_foxy_get) tt))
       = [Foxy.token_request "r" "c" "s"; out]
       /\ out = Foxy.foxy_request JUndefined req_foxy_get
       /\ assoc "Authorization" (out_headers out) = Some (JStr "Bearer undefined").
Proof.
  destruct (refreshToken_unvalidated
              (always (HttpReply 401 (JsonBody (JObj [("error", JStr "invalid_grant")]))))
              "r" "c" "s" req_foxy_get tt tt 401
              (JObj [("error", JStr "invalid_grant")]) eq_refl eq_refl)
    as [Hret Hfwd].
  split; [exact Hret | exact (Hfwd eq_refl)].
Defined.

(** C1, as stated, fails on both forwarding routes: a 404 with a JSON body
    from the upstream reaches the caller as a 500 whose body has an [error]
    message and no [details]. *)
Lemma forwarding_routes_hide_upstream_error :
  (last (trace (snd (run (Foxy.proxy (always not_found) req_proxy_get) tt)))
     = Some (Foxy.proxy_request req_proxy_get, not_found)
   /\ exists resp,
        fst (run (Foxy.proxy (always not_found) req_proxy_get) tt) = Ok resp
        /\ ~ surfaces resp 404 (JObj [("message", JStr "Not Found")]))
  /\ (last (trace (snd (run (Foxy.foxycart cart_not_found "r" "c" "s" req_foxy_get) tt)))
     = Some (Foxy.foxy_request (JStr "t0") req_foxy_get, not_found)
   /\ exists resp,
        fst (run (Foxy.foxycart cart_not_found "r" "c" "s" req_foxy_get) tt) = Ok resp
        /\ ~ surfaces resp 404 (JObj [("message", JStr "Not Found")])).
Proof.
  split; (split; [reflexivity|]); eexists; (split; [reflexivity|]);
    intros [Hstatus _]; discriminate Hstatus.
Qed.

Lemma upstream_error_response_witness :
  exists resp,
    fst (run (handler (always not_found) no_env "r" "c" "s" GetPageMeta req_page) tt)
      = Ok resp
    /\ error_response MirrorAxios 404
         (JsonBody (JObj [("message", JStr "Not Found")])) resp.
Proof.
  apply (upstream_error_response (always not_found) no_env "r" "c" "s"
           GetPageMeta req_page tt
           (Axios.webflow_config no_env "GET" "/pages/p1" JNull)).
  - reflexivity.
  - reflexivity.
  - intros H. discriminate H.
Defined.

Lemma missing_path_param_witness :
  run (handler (always not_found) no_env "r" "c" "s" GetPageMeta req_no_page) tt
    = (Ok (res_status_json 400 (JObj [("error", JStr "page_id is required.")])),
       mkSt tt []).
Proof.
  apply (missing_path_param_is_400 (always not_found) no_env "r" "c" "s"
           GetPageMeta "page_id" req_no_page tt).
  - reflexivity.
  - right. reflexivity.
  - reflexivity.
Defined.

Lemma non_object_field_witness :
  exists resp,
    run (handler (always not_found) no_env "r" "c" "s" PutPageMeta req_put_string) tt
      = (Ok resp, mkSt tt [])
    /\ error_only resp 400.
Proof.
  apply (non_object_field_is_400 (always not_found) no_env "r" "c" "s"
           PutPageMeta "fieldData" req_put_string tt); reflexivity.
Defined.

(** An array is of Object type: the guard lets it through and the route
    forwards it. *)
Example array_fieldData_is_forwarded :
  calls (snd (run (handler (always created) no_env "r" "c" "s"
                     PutPageMeta req_put_array) tt))
    = [ Axios.webflow_config no_env "PUT" "/pages/p1"
          (JObj [("fieldData", JArr [])]) ].
Proof. reflexivity. Qed.

Lemma webflow_missing_fieldData_witness :
  exists msg,
    run (Fetch.webflow (always created) no_env req_webflow_empty) tt
      = (Throw (JsError "TypeError" msg), mkSt tt []).
Proof.
  apply (webflow_missing_fieldData_throws (always created) no_env
           req_webflow_empty tt).
  reflexivity.
Defined.

(** ** The field projection *)

Lemma has_fieldData_reads (item : JValue) (k : string) :
  has_fieldData item ->
  js_get item k = Ok (js_get_opt item k)
  /\ forall k', js_get (js_get_opt item "fieldData") k'
                = Ok (js_get_opt (js_get_opt item "fieldData") k').
Proof.
  unfold has_fieldData. intros H. split.
  - destruct item; try discriminate H; reflexivity.
  - intros k'. apply js_get_defined, H.
Qed.

Lemma project_items_tabulate (item : JValue) :
  has_fieldData item -> Cms.project_items item = Ok (tabulate Cms.First item).
Proof.
  intros H. unfold Cms.project_items.
  pose proof (fun k => proj1 (has_fieldData_reads item k H)) as Hitem.
  pose proof (proj2 (has_fieldData_reads item "fieldData" H)) as Hdata.
  rewrite (Hitem "fieldData"). cbn [mbind Res_bind obj_lit].
  rewrite !Hitem, !Hdata. reflexivity.
Qed.

Lemma project_items_airtable_tabulate (item : JValue) :
  has_fieldData item ->
  Cms.project_items_airtable (Cms.collection_id Cms.Second) item
    = Ok (tabulate Cms.Second item).
Proof.
  intros H. unfold Cms.project_items_airtable.
  pose proof (fun k => proj1 (has_fieldData_reads item k H)) as Hitem.
  pose proof (proj2 (has_fieldData_reads item "fieldData" H)) as Hdata.
  rewrite (Hitem "fieldData"). cbn [mbind Res_bind obj_lit].
  rewrite !Hitem, !Hdata. reflexivity.
Qed.

Lemma map_res_total {A B : Type} (f : A -> Res B) (g : A -> B) (l : list A) :
  Forall (fun x => f x = Ok (g x)) l -> map_res f l = Ok (map g l).
Proof.
  induction 1 as [|x l Hx _ IH]; simpl; [reflexivity|].
  rewrite Hx. simpl. rewrite IH. reflexivity.
Qed.

Lemma cleaned_tabulate (p : Cms.Projection) (items : list JValue) :
  Forall has_fieldData items -> Cms.cleaned p items = Ok (map (tabulate p) items).
Proof.
  intros H. destruct p; simpl; apply map_res_total;
    (eapply Forall_impl; [exact H|]); intros item Hitem.
  - apply project_items_tabulate, Hitem.
  - apply project_items_airtable_tabulate, Hitem.
Qed.

Lemma tabulate_row (p : Cms.Projection) (item : JValue) (k : string) (src : Source) :
  In (k, src) (projection_table p) ->
  assoc k (map (fun row => (fst row, read_source (snd row) item)) (projection_table p))
    = Some (read_source src item).
Proof.
  destruct p; simpl; intros H;
    repeat (destruct H as [H|H]; [injection H as <- <-; reflexivity|]);
    contradiction.
Qed.

(** C4 (amended). On a list whose items all have a non-null [fieldData],
    the projection returns an array of the same length; each element has
    exactly the keys of its variant's table, in the table's order, and the
    value of each key is the item's source field as it stands ([undefined]
    when the item lacks it), except [collectionId] of the second variant,
    which is the route's own constant. *)
Theorem projection_on_items_with_fieldData (p : Cms.Projection) (items : list JValue) :
  Forall has_fieldData items ->
  exists out,
    Cms.cleaned p items = Ok out
    /\ List.length out = List.length items
    /\ Forall2 (fun item o =>
         exists fields,
           o = JObj fields
           /\ map fst fields = allow_list p
           /\ forall k src, In (k, src) (projection_table p) ->
                assoc k fields = Some (read_source src item))
       items out.
Proof.
  intros H. exists (map (tabulate p) items). split; [|split].
  - apply cleaned_tabulate, H.
  - apply length_map.
  - clear H. induction items as [|item items IH]; simpl; constructor; [|exact IH].
    eexists. split; [reflexivity|]. split.
    + unfold allow_list. rewrite map_map. reflexivity.
    + intros k src Hin. apply tabulate_row, Hin.
Qed.

(** C4, as stated, fails: an item without [fieldData] makes the callback
    read a property of [undefined]; the projection throws and yields no
    array at all. *)
Lemma projection_throws_without_fieldData :
  ~ projection_total Cms.First [item_ok; item_bare].
Proof. intros (out & H & _). vm_compute in H. discriminate H. Qed.

Lemma projection_witness :
  exists out,
    Cms.cleaned Cms.Second [item_ok] = Ok out
    /\ List.length out = 1%nat
    /\ Forall2 (fun item o =>
         exists fields,
           o = JObj fields
           /\ map fst fields = allow_list Cms.Second
           /\ forall k src, In (k, src) (projection_table Cms.Second) ->
                assoc k fields = Some (read_source src item))
       [item_ok] out.
Proof.
  apply (projection_on_items_with_fieldData Cms.Second [item_ok]).
  constructor; [reflexivity | constructor].
Defined.

(** The second variant's [collectionId] is the route's constant even when
    the item has a field of that name. *)
Example collectionId_is_constant :
  (out ← Cms.cleaned Cms.Second [item_ok];
   mret (map (fun o => js_get_opt o "collectionId") out))
    = Ok [JStr "64b01211660e83444d2586c1"]
  /\ js_get_opt item_ok "collectionId" = JStr "other".
Proof. split; reflexivity. Qed.

(** ** Start-up *)

(** C5 (amended). An axios server exits with code 1, before [app.listen],
    whenever one of the variables it requires ([WEBFLOW_API_KEY], [SITE_ID],
    and for the spreadsheet variant [AIRTABLE_API_KEY], [AIRTABLE_BASE_ID])
    is absent or empty; so when it listens, every one of them is set.  The
    node-fetch CMS server listens whatever the environment holds. *)
Theorem startup_exits_when_unset (v : Variant) (env : gmap string string) :
  (forall name,
      In name (required_env v) -> unset env name = true ->
      startup v env = Exited 1)
  /\ (forall port name,
      startup v env = Listening port -> In name (required_env v) ->
      unset env name = false)
  /\ startup FetchServer env = Listening (PORT env).
Proof.
  assert (Hexit : forall name,
    In name (required_env v) -> unset env name = true ->
    startup v env = Exited 1).
  { intros name Hin Hunset.
    destruct v; simpl in Hin;
      repeat (destruct Hin as [<-|Hin]); try contradiction;
      unfold startup, axios_startup, airtable_startup;
      rewrite ?Hunset, ?orb_true_r; try reflexivity;
      destruct (unset env "WEBFLOW_API_KEY" || unset env "SITE_ID");
      try reflexivity; rewrite ?Hunset, ?orb_true_r; reflexivity. }
  split; [exact Hexit | split; [|reflexivity]].
  intros port name Hlisten Hin.
  destruct (unset env name) eqn:E; [|reflexivity].
  rewrite (Hexit name Hin E) in Hlisten. discriminate Hlisten.
Qed.

(** So a listening axios server has all its credentials. *)
Corollary listening_has_credentials (v : Variant) (env : gmap string string) (port : string) :
  checks_environment v = true ->
  startup v env = Listening port ->
  forall name, In name (credentials v) -> unset env name = false.
Proof.
  intros Hv Hstart name Hin.
  destruct (unset env name) eqn:E; [|reflexivity].
  assert (Hexit : startup v env = Exited 1).
  { destruct v; try discriminate Hv; simpl in Hin; unfold startup;
      repeat (destruct Hin as [<-|Hin]); try contradiction;
      unfold axios_startup, airtable_startup;
      rewrite ?E; try reflexivity;
      destruct (unset env "WEBFLOW_API_KEY" || unset env "SITE_ID");
      try reflexivity; rewrite ?orb_true_r; reflexivity. }
  congruence.
Qed.

(** C5, as stated, fails on the node-fetch CMS server: with no API key in
    the environment it reaches [app.listen]. *)
Lemma fetch_server_starts_without_key :
  ~ exits_when_unset FetchServer no_env.
Proof.
  intros H. destruct H as [code Hcode].
  - exists "WEBFLOW_API_KEY". split; [left; reflexivity | reflexivity].
  - discriminate Hcode.
Qed.

(** Its handlers then send the literal credential ["Bearer undefined"]. *)
Example fetch_server_sends_undefined_key :
  startup FetchServer no_env = Listening "3000"
  /\ assoc "authorization" (Fetch.webflow_headers no_env)
     = Some (JStr "Bearer undefined").
Proof. split; reflexivity. Qed.

Lemma startup_exits_witness :
  startup CmsAirtable full_env = Exited 1
  /\ startup PagesServer (<["WEBFLOW_API_KEY" := "key"]> no_env) = Exited 1.
Proof.
  split.
  - apply (proj1 (startup_exits_when_unset CmsAirtable full_env)
             "AIRTABLE_API_KEY").
    + right. right. left. reflexivity.
    + reflexivity.
  - apply (proj1 (startup_exits_when_unset PagesServer
                    (<["WEBFLOW_API_KEY" := "key"]> no_env))
             "SITE_ID").
    + right. left. reflexivity.
    + reflexivity.
Defined.

(** ** Whole routes *)

Section WholeRoutes.
Context {W : Type}.
Variable upstream : OutReq -> W -> Reply * W.
Variable env : gmap string string.

(** X15. On a 2xx reply whose [items] all have a [fieldData], the route
    answers 200 with [success: true], the projected array and, as [count],
    the number of items. *)
Lemma cms_items_response (p : Cms.Projection) (req : Request) (w w' : W)
    (s : Z) (payload : JValue) (items : list JValue) :
  upstream (Axios.webflow_config env "GET"
              ("/v2/collections/" +:+ Cms.collection_id p +:+ "/items") JNull) w
    = (HttpReply s (JsonBody payload), w') ->
  is_2xx s = true ->
  js_get payload "items" = Ok (JArr items) ->
  Forall has_fieldData items ->
  fst (run (Cms.cms_items upstream env p req) w)
    = Ok (res_json (JObj [ ("success", JBool true);
                            ("count", JNum (Z.of_nat (List.length items)));
                            ("items", JArr (map (tabulate p) items)) ])).
Proof.
  intros Hup H2xx Hitems Hall.
  unfold Cms.cms_items, run, try_catch at 1, bind at 1.
  rewrite (makeWebflowRequest_single_call upstream env _ _ _ _). cbn [world trace fst snd].
  rewrite Hup. cbn [helper_outcome fst snd]. rewrite H2xx. cbn [axios_data].
  rewrite !bind_lift, Hitems. cbn [as_array]. rewrite !bind_lift.
  rewrite (cleaned_tabulate p items Hall). cbn. rewrite length_map. reflexivity.
Qed.

(** Without the body parsers a route that destructures [req.body] would
    throw before its checks. *)
Example put_without_body_throws (w : W) :
  exists msg,
    run (Axios.put_page_meta upstream env (mkRequest "PUT" [] [] JUndefined)) w
      = (Throw (JsError "TypeError" msg), mkSt w []).
Proof. eexists. reflexivity. Qed.
End WholeRoutes.

(* ===================================================================== *)
(** * Further properties of the routes *)
(* ===================================================================== *)

(** ** What the pure steps can throw *)

Lemma js_get_throws (v : JValue) (k : string) (e : Thrown) :
  js_get v k = Throw e -> is_js_error e.
Proof.
  destruct v; simpl; intros H; try discriminate H;
    injection H as <-; unfold is_js_error; eauto.
Qed.

Lemma js_get_ok_defined (v : JValue) (k : string) (x : JValue) :
  js_get v k = Ok x -> nullish v = false /\ x = js_get_opt v k.
Proof.
  destruct v; simpl; intros H; try discriminate H;
    injection H as <-; split; reflexivity.
Qed.

Lemma as_array_throws (v : JValue) (e : Thrown) :
  as_array v = Throw e -> is_js_error e.
Proof.
  destruct v; simpl; intros H; try discriminate H;
    injection H as <-; unfold is_js_error; eauto.
Qed.

Lemma obj_lit_throws (inits : list (string * Res JValue)) (e : Thrown) :
  Forall (fun init => forall e', snd init = Throw e' -> is_js_error e') inits ->
  obj_lit inits = Throw e -> is_js_error e.
Proof.
  induction 1 as [|[k init] inits Hinit _ IH]; simpl; [discriminate|].
  destruct init as [v|e0]; simpl.
  - destruct (obj_lit inits); simpl; [discriminate|].
    intros H. injection H as <-. apply IH. reflexivity.
  - intros H. injection H as <-. apply (Hinit e0). reflexivity.
Qed.

Lemma obj_lit_ok (inits : list (string * Res JValue)) (fields : list (string * JValue)) :
  obj_lit inits = Ok fields ->
  Forall (fun init => exists v, snd init = Ok v) inits.
Proof.
  revert fields. induction inits as [|[k init] inits IH]; intros fields; simpl;
    [constructor|].
  destruct init as [v|e]; simpl; [|discriminate].
  destruct (obj_lit inits) as [fs|e] eqn:Hfs; simpl; [|discriminate].
  intros _. constructor; [eauto | eapply IH; reflexivity].
Qed.

Lemma map_res_throws {A B : Type} (f : A -> Res B) (l : list A) (e : Thrown) :
  map_res f l = Throw e -> exists x, In x l /\ f x = Throw e.
Proof.
  induction l as [|x l IH]; simpl; [discriminate|].
  destruct (f x) as [y|e0] eqn:Hx; simpl.
  - destruct (map_res f l); simpl; [discriminate|].
    intros H. injection H as <-. destruct (IH eq_refl) as (x' & Hin & Hx').
    exists x'. split; [right; exact Hin | exact Hx'].
  - intros H. injection H as <-. exists x. split; [left; reflexivity | exact Hx].
Qed.

Lemma map_res_ok {A B : Type} (f : A -> Res B) (l : list A) (out : list B) :
  map_res f l = Ok out -> Forall (fun x => exists y, f x = Ok y) l.
Proof.
  revert out. induction l as [|x l IH]; intros out; simpl; [constructor|].
  destruct (f x) as [y|e] eqn:Hx; simpl; [|discriminate].
  destruct (map_res f l) as [ys|e] eqn:Hl; simpl; [|discriminate].
  intros _. constructor; [eauto | eapply IH; reflexivity].
Qed.

Ltac init_throws :=
  repeat constructor; simpl; intros ? H;
  first [ discriminate H | exact (js_get_throws _ _ _ H) ].

(** The projection throws nothing but JavaScript errors. *)
Lemma cleaned_throws (p : Cms.Projection) (items : list JValue) (e : Thrown) :
  Cms.cleaned p items = Throw e -> is_js_error e.
Proof.
  destruct p; simpl; intros H; apply map_res_throws in H;
    destruct H as (item & _ & H);
    unfold Cms.project_items, Cms.project_items_airtable in H;
    (destruct (js_get item "fieldData") as [f|e0] eqn:Hf;
     cbn [mbind Res_bind] in H;
     [|injection H as <-; exact (js_get_throws _ _ _ Hf)]);
    match type of H with
    | context [obj_lit ?inits] =>
        destruct (obj_lit inits) as [fields|e1] eqn:Hlit;
        cbn [mbind Res_bind mret Res_ret] in H;
        [discriminate H | injection H as <-];
        refine (obj_lit_throws _ _ _ Hlit); init_throws
    end.
Qed.

Lemma projected_has_fieldData (p : Cms.Projection) (item y : JValue) :
  match p with
  | Cms.First => Cms.project_items item
  | Cms.Second => Cms.project_items_airtable (Cms.collection_id Cms.Second) item
  end = Ok y ->
  has_fieldData item.
Proof.
  unfold has_fieldData, Cms.project_items, Cms.project_items_airtable.
  destruct (js_get item "fieldData") as [f|e] eqn:Hf;
    [|destruct p; discriminate].
  apply js_get_ok_defined in Hf as [_ ->].
  destruct p; cbn [mbind Res_bind]; intros H;
    match type of H with
    | context [obj_lit ?inits] =>
        destruct (obj_lit inits) as [fields|e1] eqn:Hlit; [|discriminate H];
        apply obj_lit_ok in Hlit;
        rewrite Forall_forall in Hlit;
        destruct (Hlit ("name", js_get (js_get_opt item "fieldData") "name"))
          as [v Hv];
          [first [left; reflexivity | right; left; reflexivity]|];
        apply js_get_ok_defined in Hv as [Hv _]; exact Hv
    end.
Qed.

Lemma cleaned_ok_fieldData (p : Cms.Projection) (items out : list JValue) :
  Cms.cleaned p items = Ok out -> Forall has_fieldData items.
Proof.
  intros H. destruct p; simpl in H; apply map_res_ok in H;
    (eapply Forall_impl; [exact H|]); intros item [y Hy]; simpl in Hy.
  - exact (projected_has_fieldData Cms.First item y Hy).
  - exact (projected_has_fieldData Cms.Second item y Hy).
Qed.

Lemma guard_passes (v : JValue) :
  is_object v = true ->
  negb (truthy v) || negb (String.eqb (typeof v) "object") = false.
Proof. intros H. rewrite object_guard, H. reflexivity. Qed.

Lemma obj_set_fresh (k : string) (v : JValue) (l : list (string * JValue)) :
  Forall (fun kv => fst kv <> k) l -> obj_set k v l = (l ++ [(k, v)])%list.
Proof.
  induction 1 as [|[k' v'] l Hk _ IH]; simpl; [reflexivity|].
  simpl in Hk. destruct (String.eqb_spec k k'); [congruence|].
  rewrite IH. reflexivity.
Qed.

(** ** Running any route *)

(** Replace what a pure step threw by the JavaScript error it is. *)
Ltac js_errors :=
  repeat match goal with
    | H : js_get _ _ = Throw ?e |- _ =>
        destruct (js_get_throws _ _ _ H) as (? & ? & ->); clear H
    | H : as_array _ = Throw ?e |- _ =>
        destruct (as_array_throws _ _ H) as (? & ? & ->); clear H
    | H : Cms.cleaned _ _ = Throw ?e |- _ =>
        destruct (cleaned_throws _ _ _ H) as (? & ? & ->); clear H
    end.

(** Run a route against the upstream [up]: a case split at every call, at
    every status test, at every check and at every pure step. *)
Ltac route_steps up :=
  cbv beta iota zeta delta
    [run try_catch bind fetch send json lift ret throw axios
     Axios.makeWebflowRequest Cms.makeAirtableRequest Axios.rethrow
     Axios.fail_with Axios.bad_request world trace calls];
  repeat match goal with
    | |- context [up ?c0 ?w0] =>
        destruct (up c0 w0) as [[|? [?|?]] ?]; cbn
    | |- context [is_2xx ?s0] => destruct (is_2xx s0) eqn:?; cbn
    | |- context [truthy ?v] => destruct (truthy v) eqn:?; cbn
    | |- context [match ?r with Ok _ => _ | Throw _ => _ end] =>
        lazymatch r with
        | js_get _ _ => idtac
        | as_array _ => idtac
        | Cms.cleaned _ _ => idtac
        end;
        destruct r eqn:?; js_errors; cbn
    | |- context [if ?b then _ else _] => destruct b eqn:?; cbn
    end.

Ltac unfold_routes :=
  unfold Axios.test_auth, Axios.get_page_meta, Axios.put_page_meta,
    Axios.get_page_content, Axios.post_page_content, Axios.get_live_item,
    Axios.patch_live_item, Axios.get_custom_code, Axios.put_custom_code,
    Cms.cms_items, Cms.cms_items_raw, Cms.airtable_ping,
    Fetch.webflow, Fetch.test_auth,
    Foxy.foxycart, Foxy.proxy, Foxy.refreshToken, Foxy.relay_reply.

Section EveryRoute.
Context {W : Type}.
Variable upstream : OutReq -> W -> Reply * W.
Variable env : gmap string string.
Variables refresh_token client_id client_secret : string.

#[local] Abbreviation handler :=
  (handler upstream env refresh_token client_id client_secret).

(** X1. A route makes at most one upstream call per request; the cart route,
    which refreshes its token first, makes at most two. *)
Theorem calls_per_request (r : Route) (req : Request) (w : W) :
  (List.length (trace (snd (run (handler r req) w))) <= max_calls r)%nat.
Proof.
  destruct r; simpl Routes.handler; unfold_routes;
    route_steps upstream; simpl; lia.
Qed.

(** X2. When the last upstream call of a handler got no reply at all, the
    handler answers 500: the axios routes with
    [details: { message: 'Internal Server Error' }], the cart and generic
    routes with their fixed [error] message. *)
Theorem network_failure_is_500 (r : Route) (req : Request) (w : W) (c : OutReq) :
  last (trace (snd (run (handler r req) w))) = Some (c, NetworkFailure) ->
  exists resp,
    fst (run (handler r req) w) = Ok resp
    /\ network_failure_response (error_policy r) resp.
Proof.
  destruct r; simpl Routes.handler; simpl error_policy;
    unfold network_failure_response; unfold_routes;
    route_steps upstream; intros Hlast; try discriminate Hlast;
    eexists; (split; [reflexivity|]); repeat split; eauto.
Qed.

(** X3. No false success: a handler answers with a 2xx status only when its
    last upstream call was answered with a 2xx status, and that status is
    then 200 whatever the upstream's was. *)
Theorem success_needs_upstream_success (r : Route) (req : Request) (w : W)
    (resp : Response) :
  fst (run (handler r req) w) = Ok resp ->
  is_2xx (status resp) = true ->
  status resp = 200
  /\ exists c s b,
       last (trace (snd (run (handler r req) w))) = Some (c, HttpReply s b)
       /\ is_2xx s = true.
Proof.
  intros Hresp Hok.
  assert (H : match fst (run (handler r req) w) with
              | Ok resp' =>
                  is_2xx (status resp') = true ->
                  status resp' = 200
                  /\ exists c s b,
                       last (trace (snd (run (handler r req) w)))
                         = Some (c, HttpReply s b)
                       /\ is_2xx s = true
              | Throw _ => True
              end).
  { clear. destruct r; simpl Routes.handler; unfold_routes;
      route_steps upstream; try exact I; intros Hok;
      try discriminate Hok; try congruence;
      try (exfalso;
           match goal with
           | H : is_2xx ?n = true |- _ => vm_compute in H; discriminate H
           end);
      (split; [reflexivity | eauto 10]). }
  rewrite Hresp in H. exact (H Hok).
Qed.

(** X4. Every handler but POST /webflow of the node-fetch server ends by
    sending a response, whatever the upstream does; for the routes that
    destructure [req.body] this needs the body to be defined. *)
Theorem handlers_always_answer (r : Route) (req : Request) (w : W) :
  r <> FetchWebflow ->
  body_field r = None \/ body_parsed req ->
  exists resp, fst (run (handler r req) w) = Ok resp.
Proof.
  intros Hr Hb.
  destruct r; try contradiction; simpl in Hb;
    try (destruct Hb as [Hb|Hb]; [discriminate Hb|]);
    simpl Routes.handler; unfold_routes;
    rewrite ?bind_lift, ?(js_get_defined _ _ Hb);
    route_steps upstream; eauto.
Qed.

(** X5. The eight page, collection-item and custom-code routes hand a 2xx
    reply back as it is: status 200 and the upstream's data as the body. *)
Theorem success_passthrough (r : Route) (name : string) (req : Request) (w : W)
    (c : OutReq) (s : Z) (b : RespBody) :
  path_param r = Some name ->
  last (trace (snd (run (handler r req) w))) = Some (c, HttpReply s b) ->
  is_2xx s = true ->
  fst (run (handler r req) w) = Ok (res_json (axios_data b)).
Proof.
  intros Hr Hlast H2xx. revert Hlast.
  destruct r; try discriminate Hr; simpl Routes.handler; unfold_routes;
    route_steps upstream; intros Hlast; try discriminate Hlast;
    inversion Hlast; subst; try congruence; reflexivity.
Qed.

(** X6. A request that passes both checks of a mutating route (a non-empty
    path parameter, an object or array as [fieldData] or [customCode]) leads
    to exactly one call to the CMS API, whose JSON data carries that field
    unchanged. *)
Theorem valid_body_is_forwarded (r : Route) (name field : string)
    (req : Request) (w : W) :
  path_param r = Some name ->
  body_field r = Some field ->
  truthy (param req name) = true ->
  body_parsed req ->
  is_object (js_get_opt (req_body req) field) = true ->
  exists c d,
    calls (snd (run (handler r req) w)) = [c]
    /\ out_body c = Some (JsonData d)
    /\ js_get_opt d field = js_get_opt (req_body req) field
    /\ String.prefix "https://api.webflow.com/" (out_url c) = true.
Proof.
  intros Hname Hfield Hp Hb Hv.
  destruct r; try discriminate Hfield; injection Hfield as <-;
    injection Hname as <-; simpl Routes.handler; unfold_routes;
    unfold run; cbv zeta;
    repeat (rewrite bind_lift, (js_get_defined _ _ Hb); cbv beta);
    rewrite Hp; cbn [negb]; rewrite (guard_passes _ Hv);
    route_steps upstream; eexists _, _; repeat split; reflexivity.
Qed.

(** X7. Every call of the thirteen CMS routes goes to
    [https://api.webflow.com/] and carries [authorization: Bearer <key>],
    the key being the [WEBFLOW_API_KEY] of the environment. *)
Theorem webflow_calls_carry_the_key (r : Route) (key : string) (req : Request) (w : W) :
  env !! "WEBFLOW_API_KEY" = Some key ->
  webflow_route r = true ->
  Forall (webflow_call key) (calls (snd (run (handler r req) w))).
Proof.
  intros Hkey Hr.
  destruct r; try discriminate Hr; simpl Routes.handler; unfold_routes;
    route_steps upstream; repeat constructor; cbn;
    unfold Axios.WEBFLOW_API_KEY, Fetch.WEBFLOW_API_KEY; rewrite Hkey; reflexivity.
Qed.

(** X8. On the four node-fetch routes a reply whose body is not JSON ends in
    a 500, whatever its status, 2xx included. *)
Theorem non_json_reply_is_500 (r : Route) (req : Request) (w : W)
    (c : OutReq) (s : Z) (t : string) :
  error_policy r <> MirrorAxios ->
  last (trace (snd (run (handler r req) w))) = Some (c, HttpReply s (TextBody t)) ->
  exists resp, fst (run (handler r req) w) = Ok resp /\ status resp = 500.
Proof.
  intros Hr. destruct r; simpl in Hr; try congruence; clear Hr;
    simpl Routes.handler; unfold_routes;
    route_steps upstream; intros Hlast; try discriminate Hlast;
    eauto.
Qed.
End EveryRoute.

Lemma network_failure_witness :
  exists resp,
    fst (run (handler (always NetworkFailure) no_env "r" "c" "s" GetPageMeta req_page) tt)
      = Ok resp
    /\ network_failure_response MirrorAxios resp.
Proof.
  apply (network_failure_is_500 (always NetworkFailure) no_env "r" "c" "s"
           GetPageMeta req_page tt
           (Axios.webflow_config no_env "GET" "/pages/p1" JNull)).
  reflexivity.
Defined.

Lemma success_needs_upstream_success_witness :
  status (res_json (JObj [("id", JStr "i1")])) = 200
  /\ exists c s b,
       last (trace (snd (run (handler (always created) no_env "r" "c" "s"
                                GetPageMeta req_page) tt)))
         = Some (c, HttpReply s b)
       /\ is_2xx s = true.
Proof.
  apply (success_needs_upstream_success (always created) no_env "r" "c" "s"
           GetPageMeta req_page tt (res_json (JObj [("id", JStr "i1")])));
    reflexivity.
Defined.

Lemma handlers_always_answer_witness :
  exists resp,
    fst (run (handler (always NetworkFailure) no_env "r" "c" "s"
                PutPageMeta req_put_object) tt) = Ok resp.
Proof.
  apply (handlers_always_answer (always NetworkFailure) no_env "r" "c" "s"
           PutPageMeta req_put_object tt).
  - intros H. discriminate H.
  - right. reflexivity.
Defined.

Lemma success_passthrough_witness :
  fst (run (handler (always created) no_env "r" "c" "s" GetPageMeta req_page) tt)
    = Ok (res_json (JObj [("id", JStr "i1")])).
Proof.
  apply (success_passthrough (always created) no_env "r" "c" "s"
           GetPageMeta "page_id" req_page tt
           (Axios.webflow_config no_env "GET" "/pages/p1" JNull)
           201 (JsonBody (JObj [("id", JStr "i1")])));
    reflexivity.
Defined.

Lemma valid_body_is_forwarded_witness :
  exists c d,
    calls (snd (run (handler (always created) no_env "r" "c" "s"
                       PutPageMeta req_put_object) tt)) = [c]
    /\ out_body c = Some (JsonData d)
    /\ js_get_opt d "fieldData" = js_get_opt (req_body req_put_object) "fieldData"
    /\ String.prefix "https://api.webflow.com/" (out_url c) = true.
Proof.
  apply (valid_body_is_forwarded (always created) no_env "r" "c" "s"
           PutPageMeta "page_id" "fieldData" req_put_object tt);
    reflexivity.
Defined.

Lemma webflow_calls_carry_the_key_witness :
  Forall (webflow_call "key")
    (calls (snd (run (handler (always created) full_env "r" "c" "s"
                        GetPageMeta req_page) tt))).
Proof.
  apply (webflow_calls_carry_the_key (always created) full_env "r" "c" "s"
           GetPageMeta "key" req_page tt);
    reflexivity.
Defined.

Lemma non_json_reply_witness :
  exists resp,
    fst (run (handler (always (HttpReply 200 (TextBody "<html></html>")))
                no_env "r" "c" "s" Proxy req_proxy_get) tt) = Ok resp
    /\ status resp = 500.
Proof.
  apply (non_json_reply_is_500 (always (HttpReply 200 (TextBody "<html></html>")))
           no_env "r" "c" "s" Proxy req_proxy_get tt
           (Foxy.proxy_request req_proxy_get) 200 "<html></html>").
  - intros H. discriminate H.
  - reflexivity.
Defined.

(** ** Start-up, continued *)

(** X9. An axios server reaches [app.listen] exactly when every variable it
    tests ([WEBFLOW_API_KEY], [SITE_ID], and for the spreadsheet variant
    [AIRTABLE_API_KEY], [AIRTABLE_BASE_ID]) is set and non-empty; it then
    listens on [PORT] or 3000, and otherwise exits with code 1. *)
Theorem startup_listens_iff (v : Variant) (env : gmap string string) :
  checks_environment v = true ->
  (startup v env = Listening (PORT env)
     <-> Forall (fun name => unset env name = false) (required_env v))
  /\ (startup v env = Listening (PORT env) \/ startup v env = Exited 1).
Proof.
  intros Hv. destruct v; try discriminate Hv; simpl;
    unfold axios_startup, airtable_startup;
    destruct (unset env "WEBFLOW_API_KEY") eqn:Hk,
             (unset env "SITE_ID") eqn:Hs; simpl;
    try destruct (unset env "AIRTABLE_API_KEY") eqn:Ha;
    try destruct (unset env "AIRTABLE_BASE_ID") eqn:Hb; simpl;
    (split; [split; [intros H; try discriminate H; repeat constructor; assumption
                    | intros H;
                      repeat (inversion_clear H as [|? ? ?Hx H'];
                              rename H' into H);
                      try reflexivity; congruence]
            | auto]).
Qed.

Lemma startup_listens_witness :
  (startup CmsProjected full_env = Listening (PORT full_env)
     <-> Forall (fun name => unset full_env name = false) (required_env CmsProjected))
  /\ (startup CmsProjected full_env = Listening (PORT full_env)
      \/ startup CmsProjected full_env = Exited 1).
Proof.
  apply (startup_listens_iff CmsProjected full_env). reflexivity.
Defined.

(** ** The cart route, continued *)

Section Cart.
Context {W : Type}.
Variable upstream : OutReq -> W -> Reply * W.
Variables refresh_token client_id client_secret : string.

#[local] Abbreviation token_request :=
  (Foxy.token_request refresh_token client_id client_secret).
#[local] Abbreviation foxycart :=
  (Foxy.foxycart upstream refresh_token client_id client_secret).

(** X10. When the token endpoint gives no reply, a body that is not JSON, or
    the JSON [null], the cart route makes no second call: the cart API is
    not contacted and the caller gets the fixed 500. *)
Theorem failed_refresh_stops_the_forward (req : Request) (w w1 : W) (reply : Reply) :
  upstream token_request w = (reply, w1) ->
  refresh_failed reply ->
  run (foxycart req) w = (Ok foxy_error, mkSt w1 [(token_request, reply)]).
Proof.
  intros Hup Hfail. unfold Foxy.foxycart, Foxy.refreshToken, Foxy.relay_reply.
  cbv beta iota zeta delta [run try_catch bind fetch send json lift ret throw world trace].
  rewrite Hup. destruct reply as [|s [v|t]]; cbn; try reflexivity.
  simpl in Hfail. destruct (js_get_nullish v "access_token" Hfail) as [msg ->].
  reflexivity.
Qed.

(** X11. When the token endpoint answers with JSON (any status) whose
    [access_token] is a string and the cart API then answers 2xx with JSON,
    the caller gets that JSON with status 200; the forward went to
    [https://api.foxycart.com/...] with that string as bearer token, and the
    reply to the forward is the one of the world the token call left
    behind. *)
Theorem foxycart_success (req : Request) (w w1 w2 : W)
    (s1 s2 : Z) (v d : JValue) (t : string) :
  upstream token_request w = (HttpReply s1 (JsonBody v), w1) ->
  js_get v "access_token" = Ok (JStr t) ->
  upstream (Foxy.foxy_request (JStr t) req) w1 = (HttpReply s2 (JsonBody d), w2) ->
  is_2xx s2 = true ->
  run (foxycart req) w
    = (Ok (res_json d),
       mkSt w2 [ (token_request, HttpReply s1 (JsonBody v));
                 (Foxy.foxy_request (JStr t) req, HttpReply s2 (JsonBody d)) ])
  /\ assoc "Authorization" (out_headers (Foxy.foxy_request (JStr t) req))
      = Some (JStr ("Bearer " +:+ t))
  /\ String.prefix "https://api.foxycart.com/"
       (out_url (Foxy.foxy_request (JStr t) req))
      = true.
Proof.
  intros Hup1 Htok Hup2 H2xx.
  split; [|split; [reflexivity | apply prefix_append]].
  unfold Foxy.foxycart, Foxy.refreshToken, Foxy.relay_reply.
  cbv beta iota zeta delta [run try_catch bind fetch send json lift ret throw world trace].
  rewrite Hup1. cbn. rewrite Htok. cbn. rewrite Hup2. cbn. rewrite H2xx. reflexivity.
Qed.

(** X12. Served one after the other, the requests to the cart route each
    get a response, in order: a 200, or the fixed 500. *)
Theorem cart_route_answers_every_request (reqs : list Request) (st : St W) :
  Forall2 (fun (req : Request) (r : Res Response) =>
             exists resp, r = Ok resp /\ (status resp = 200 \/ resp = foxy_error))
          reqs (fst (Foxy.serve foxycart reqs st)).
Proof.
  revert st. induction reqs as [|req reqs IH]; intros st; simpl; [constructor|].
  assert (Hone : exists resp, fst (foxycart req st) = Ok resp
                              /\ (status resp = 200 \/ resp = foxy_error)).
  { destruct st as [w tr].
    unfold Foxy.foxycart, Foxy.refreshToken, Foxy.relay_reply.
    cbv beta iota zeta delta [try_catch bind fetch send json lift ret throw world trace].
    repeat match goal with
      | |- context [upstream ?c0 ?w0] =>
          destruct (upstream c0 w0) as [[|? [?|?]] ?]; cbn
      | |- context [is_2xx ?s0] => destruct (is_2xx s0) eqn:?; cbn
      | |- context [match js_get ?a ?b with Ok _ => _ | Throw _ => _ end] =>
          destruct (js_get a b); cbn
      end; eexists; (split; [reflexivity|]); auto. }
  destruct Hone as (resp & Hresp & Hstatus).
  specialize (IH (snd (foxycart req st))).
  destruct (foxycart req st) as [r st']. simpl in *. subst r.
  destruct (Foxy.serve foxycart reqs st') as [rs st'']. simpl in *.
  constructor; [eauto | exact IH].
Qed.
End Cart.

Lemma failed_refresh_witness :
  run (Foxy.foxycart (always NetworkFailure) "r" "c" "s" req_foxy_get) tt
    = (Ok foxy_error, mkSt tt [(Foxy.token_request "r" "c" "s", NetworkFailure)]).
Proof.
  apply (failed_refresh_stops_the_forward (always NetworkFailure) "r" "c" "s"
           req_foxy_get tt tt NetworkFailure).
  - reflexivity.
  - exact I.
Defined.

Lemma foxycart_success_witness :
  run (Foxy.foxycart counting_tokens "r" "c" "s" req_foxy_get) 0%nat
    = (Ok (res_json (JObj [("ok", JBool true)])),
       mkSt 1%nat
         [ (Foxy.token_request "r" "c" "s",
            HttpReply 200 (JsonBody (JObj [("access_token", JStr "t0")])));
           (Foxy.foxy_request (JStr "t0") req_foxy_get,
            HttpReply 200 (JsonBody (JObj [("ok", JBool true)]))) ])
  /\ assoc "Authorization" (out_headers (Foxy.foxy_request (JStr "t0") req_foxy_get))
      = Some (JStr ("Bearer " +:+ "t0"))
  /\ String.prefix "https://api.foxycart.com/"
       (out_url (Foxy.foxy_request (JStr "t0") req_foxy_get)) = true.
Proof.
  apply (foxycart_success counting_tokens "r" "c" "s" req_foxy_get
           0%nat 1%nat 1%nat 200 200
           (JObj [("access_token", JStr "t0")])
           (JObj [("ok", JBool true)]) "t0");
    reflexivity.
Defined.

(** ** The projection and the remaining routes *)

(** X13. The projection returns an array exactly on the lists all of whose
    items have a [fieldData] that is neither missing nor null; on any other
    list it throws. *)
Theorem projection_succeeds_iff (p : Cms.Projection) (items : list JValue) :
  (exists out, Cms.cleaned p items = Ok out) <-> Forall has_fieldData items.
Proof.
  split.
  - intros [out H]. exact (cleaned_ok_fieldData p items out H).
  - intros H. eexists. apply cleaned_tabulate, H.
Qed.

Section MoreRoutes.
Context {W : Type}.
Variable upstream : OutReq -> W -> Reply * W.
Variable env : gmap string string.

(** X14. GET /cms/collection/items turns a successful reply it cannot
    project (no [items] array, or an item without [fieldData]) into a 500
    with [details] undefined, although the upstream answered 2xx. *)
Theorem cms_items_malformed_payload (p : Cms.Projection) (req : Request) (w w' : W)
    (s : Z) (payload : JValue) :
  upstream (Axios.webflow_config env "GET"
              ("/v2/collections/" +:+ Cms.collection_id p +:+ "/items") JNull) w
    = (HttpReply s (JsonBody payload), w') ->
  is_2xx s = true ->
  ~ (exists items,
       js_get_opt payload "items" = JArr items /\ Forall has_fieldData items) ->
  fst (run (Cms.cms_items upstream env p req) w) = Ok cms_failure.
Proof.
  intros Hup H2xx Hbad.
  unfold Cms.cms_items, run, try_catch at 1, bind at 1.
  rewrite (makeWebflowRequest_single_call upstream env _ _ _ _).
  cbn [world trace fst snd]. rewrite Hup. cbn [helper_outcome fst snd].
  rewrite H2xx. cbn [axios_data]. rewrite !bind_lift.
  destruct (js_get payload "items") as [items|e] eqn:Hitems; js_errors;
    [|reflexivity].
  apply js_get_ok_defined in Hitems as [_ ->]. rewrite !bind_lift.
  destruct (as_array (js_get_opt payload "items")) as [l|e] eqn:Harr; js_errors;
    [|reflexivity].
  rewrite !bind_lift.
  destruct (Cms.cleaned p l) as [out|e] eqn:Hclean; js_errors; [|reflexivity].
  exfalso. apply Hbad. exists l. split.
  - destruct (js_get_opt payload "items"); simpl in Harr; congruence.
  - exact (cleaned_ok_fieldData p l out Hclean).
Qed.

(** X16. POST /webflow of the node-fetch server, given a [fieldData] whose
    [name] is a JSON value, makes one POST to the fixed collection whose
    JSON text holds [isArchived] and [isDraft] set to false and a
    [fieldData] with the single key [name]: nothing else of the inbound
    body goes out. *)
Theorem webflow_forwards_only_the_name (req : Request) (w : W) :
  nullish (js_get_opt (req_body req) "fieldData") = false ->
  is_json (js_get_opt (js_get_opt (req_body req) "fieldData") "name") = true ->
  calls (snd (run (Fetch.webflow upstream env req) w))
    = [ mkOutReq "POST"
          "https://api.webflow.com/v2/collections/6494e10f7a143f705f4db1d2/items"
          (Fetch.webflow_headers env) None
          (Some (JsonText
             (JObj [ ("isArchived", JBool false);
                     ("isDraft", JBool false);
                     ("fieldData",
                      JObj [("name",
                             js_get_opt (js_get_opt (req_body req) "fieldData")
                               "name")]) ]))) ].
Proof.
  intros Hf _.
  assert (Hb : nullish (req_body req) = false).
  { destruct (req_body req); try reflexivity; discriminate Hf. }
  unfold Fetch.webflow, run. cbv zeta.
  rewrite bind_lift, (js_get_defined _ _ Hb).
  rewrite bind_lift, (js_get_defined _ _ Hf).
  fetch_steps upstream; reflexivity.
Qed.

(** X17. GET /airtable/ping makes one GET with the query [pageSize: 1] and
    no body; on a 2xx JSON reply it answers 200 with, as [sample], the first
    record when [records] is an array that starts with a truthy value, and
    [null] when [records] is empty or missing. *)
Theorem airtable_ping_sample (req : Request) (w w' : W) (s : Z) (payload : JValue) :
  let c := Cms.airtable_config env "GET"
             (js_to_string (Cms.AIRTABLE_HORSES_TABLE env))
             (JObj [("pageSize", JNum 1)]) JNull in
  upstream c w = (HttpReply s (JsonBody payload), w') ->
  is_2xx s = true ->
  exists sample,
    run (Cms.airtable_ping upstream env req) w
      = (Ok (res_json (JObj [ ("success", JBool true);
                               ("message", JStr "Airtable OK");
                               ("sample", sample) ])),
         mkSt w' [(c, HttpReply s (JsonBody payload))])
    /\ out_params c = Some (JObj [("pageSize", JNum 1)])
    /\ out_body c = None
    /\ (forall rec rest,
         js_get_opt payload "records" = JArr (rec :: rest) ->
         truthy rec = true -> sample = rec)
    /\ (js_get_opt payload "records" = JArr []
         \/ js_get_opt payload "records" = JUndefined ->
         sample = JNull).
Proof.
  cbv zeta. intros Hup H2xx.
  exists (js_or (js_first_opt (js_get_opt payload "records")) JNull).
  split; [|split; [reflexivity | split; [reflexivity | split]]].
  - unfold Cms.airtable_ping, run, try_catch at 1, bind at 1.
    rewrite (makeAirtableRequest_single_call upstream env _ _ _ _).
    cbn [world trace fst snd]. rewrite Hup. cbn [helper_outcome fst snd].
    rewrite H2xx. reflexivity.
  - intros rec rest -> Hrec. unfold js_or. simpl. rewrite Hrec. reflexivity.
  - intros [-> | ->]; reflexivity.
Qed.

(** X18. Both request helpers make exactly one call and end in one of two
    ways: they return the data of a 2xx reply, or they throw a
    [{ status, data }] object whose status is not 2xx (500 when no reply
    came); no other error escapes them. *)
Theorem helpers_normalise_errors (method endpoint path : string)
    (params data : JValue) (w : W) :
  helper_result
    (fst (run (Axios.makeWebflowRequest upstream env method endpoint data) w))
    (trace (snd (run (Axios.makeWebflowRequest upstream env method endpoint data) w)))
  /\ helper_result
    (fst (run (Cms.makeAirtableRequest upstream env method path params data) w))
    (trace (snd (run (Cms.makeAirtableRequest upstream env method path params data) w))).
Proof.
  split; unfold run;
    [ rewrite (makeWebflowRequest_single_call upstream env _ _ _ _)
    | rewrite (makeAirtableRequest_single_call upstream env _ _ _ _) ];
    cbn [world trace fst snd];
    match goal with
    | |- context [upstream ?c0 ?w0] =>
        destruct (upstream c0 w0) as [[|s b] w1]; cbn
    end;
    try destruct (is_2xx s) eqn:E; cbn; eauto 10.
Qed.
End MoreRoutes.

(** X19. With header names in lower case, as Node delivers them, the header
    object of the generic route is the inbound headers followed by [Host]
    and [Origin] set to [undefined]: every inbound header, [host] and
    [origin] included, is still in it with its value. *)
Theorem proxy_keeps_inbound_headers (req : Request) :
  lower_case_names req ->
  Foxy.proxy_headers req
    = (map (fun kv => (fst kv, JStr (snd kv))) (req_headers req)
       ++ [("Host", JUndefined); ("Origin", JUndefined)])%list
  /\ forall name value,
       In (name, value) (req_headers req) ->
       Foxy.header_sent name (Foxy.proxy_headers req) = true.
Proof.
  intros Hlow.
  assert (Heq : Foxy.proxy_headers req
    = (map (fun kv => (fst kv, JStr (snd kv))) (req_headers req)
       ++ [("Host", JUndefined); ("Origin", JUndefined)])%list).
  { unfold Foxy.proxy_headers, lower_case_names in *.
    rewrite (obj_set_fresh "Host").
    - rewrite (obj_set_fresh "Origin").
      + rewrite <- app_assoc. reflexivity.
      + apply Forall_app. split.
        * apply Forall_map. eapply Forall_impl; [exact Hlow|].
          intros [k v] Hk; simpl in *. intros ->. discriminate Hk.
        * constructor; [discriminate | constructor].
    - apply Forall_map. eapply Forall_impl; [exact Hlow|].
      intros [k v] Hk; simpl in *. intros ->. discriminate Hk. }
  split; [exact Heq|].
  intros name value Hin. rewrite Heq. unfold Foxy.header_sent.
  apply existsb_exists. exists (name, JStr value). split.
  - apply in_or_app. left. apply in_map_iff. exists (name, value). auto.
  - simpl. rewrite String.eqb_refl. reflexivity.
Qed.

Lemma cms_items_malformed_witness :
  fst (run (Cms.cms_items (always (HttpReply 200 (JsonBody bare_payload)))
              full_env Cms.First req_page) tt)
    = Ok cms_failure.
Proof.
  apply (cms_items_malformed_payload (always (HttpReply 200 (JsonBody bare_payload)))
           full_env Cms.First req_page tt tt 200 bare_payload).
  - reflexivity.
  - reflexivity.
  - intros (items & Hitems & Hall). injection Hitems as <-.
    inversion Hall as [|? ? _ Hrest]. inversion Hrest as [|? ? Hbare _].
    discriminate Hbare.
Defined.

Lemma cms_items_response_witness :
  fst (run (Cms.cms_items (always (HttpReply 200 (JsonBody items_payload)))
              full_env Cms.First req_page) tt)
    = Ok (res_json (JObj [ ("success", JBool true);
                            ("count", JNum (Z.of_nat (List.length [item_ok])));
                            ("items", JArr (map (tabulate Cms.First) [item_ok])) ])).
Proof.
  apply (cms_items_response (always (HttpReply 200 (JsonBody items_payload)))
           full_env Cms.First req_page tt tt 200 items_payload [item_ok]).
  - reflexivity.
  - reflexivity.
  - reflexivity.
  - constructor; [reflexivity | constructor].
Defined.

Lemma webflow_forwards_only_the_name_witness :
  calls (snd (run (Fetch.webflow (always created) no_env req_webflow_named) tt))
    = [ mkOutReq "POST"
          "https://api.webflow.com/v2/collections/6494e10f7a143f705f4db1d2/items"
          (Fetch.webflow_headers no_env) None
          (Some (JsonText
             (JObj [ ("isArchived", JBool false);
                     ("isDraft", JBool false);
                     ("fieldData",
                      JObj [("name",
                             js_get_opt
                               (js_get_opt (req_body req_webflow_named) "fieldData")
                               "name")]) ]))) ].
Proof.
  apply (webflow_forwards_only_the_name (always created) no_env
           req_webflow_named tt);
    reflexivity.
Defined.

Lemma airtable_ping_witness :
  exists sample,
    run (Cms.airtable_ping (always (HttpReply 200 (JsonBody records_payload)))
           no_env req_page) tt
      = (Ok (res_json (JObj [ ("success", JBool true);
                               ("message", JStr "Airtable OK");
                               ("sample", sample) ])),
         mkSt tt [(Cms.airtable_config no_env "GET"
                     (js_to_string (Cms.AIRTABLE_HORSES_TABLE no_env))
                     (JObj [("pageSize", JNum 1)]) JNull,
                   HttpReply 200 (JsonBody records_payload))])
    /\ sample = JObj [("id", JStr "rec1")].
Proof.
  destruct (airtable_ping_sample (always (HttpReply 200 (JsonBody records_payload)))
              no_env req_page tt tt 200 records_payload eq_refl eq_refl)
    as (sample & Hrun & _ & _ & Hfirst & _).
  exists sample. split; [exact Hrun|].
  apply (Hfirst (JObj [("id", JStr "rec1")]) []); reflexivity.
Defined.

Lemma proxy_keeps_inbound_headers_witness :
  Foxy.header_sent "host" (Foxy.proxy_headers req_proxy_patch) = true.
Proof.
  destruct (proxy_keeps_inbound_headers req_proxy_patch) as [_ Hsent].
  - repeat constructor.
  - apply (Hsent "host" "proxy.example.com"). left. reflexivity.
Defined.

(* ===================================================================== *)
(** * Routing and the checks of the handlers *)
(* ===================================================================== *)




Section PathParams.
Context {W : Type}.
Variable upstream : OutReq -> W -> Reply * W.
Variable env : gmap string string.
Variable decode : string -> option string.

End PathParams.



(** ** The body field *)

Section BodyField.
Context {W : Type}.
Variable upstream : OutReq -> W -> Reply * W.
Variable env : gmap string string.
Variables refresh_token client_id client_secret : string.

#[local] Abbreviation handler :=
  (handler upstream env refresh_token client_id client_secret).



End BodyField.


